(** * ST7789 LCD panel driver (components/esp_lcd/src/esp_lcd_panel_st7789.c)

    A shallow embedding of the driver: the panel object is a record, every
    call into the host framework (panel I/O, GPIO, FreeRTOS delay, the
    allocator) is an event appended to a trace, and the value such a call
    returns is chosen by an arbitrary environment [reply].  C integers are
    [Z] with their wrap-around written out; [assert] is taken as compiled
    in.  Logging ([ESP_LOGD], the messages of the [esp_check.h] macros) and
    the dispatch table [base] are left out. *)

From Stdlib Require Import ZArith List Bool Lia.
Import ListNotations.
Local Open Scope Z_scope.

(** ** C integer types of the target (ILP32) *)

Module CInt.

Definition INT_MIN : Z := - 2 ^ 31.
Definition INT_MAX : Z := 2 ^ 31 - 1.

Definition in_int (z : Z) : Prop := INT_MIN <= z <= INT_MAX.

(** [int]: two's complement, 32 bits. *)
Definition wrap_int (z : Z) : Z := (z + 2 ^ 31) mod 2 ^ 32 - 2 ^ 31.

(** Conversions to [uint8_t] and to [size_t] reduce modulo the width. *)
Definition to_uint8 (z : Z) : Z := z mod 2 ^ 8.
Definition to_size_t (z : Z) : Z := z mod 2 ^ 32.

Definition int_add (a b : Z) : Z := wrap_int (a + b).
Definition int_sub (a b : Z) : Z := wrap_int (a - b).
Definition int_mul (a b : Z) : Z := wrap_int (a * b).
(** [/] on [int] truncates towards zero. *)
Definition int_div (a b : Z) : Z := wrap_int (Z.quot a b).

End CInt.
Export CInt.

(** ** Constants of headers that are not part of this file *)

Definition esp_err_t := Z.

(** Modelled from the spec: esp_err.h is not among the sources.  The spec
    names success and the errors "invalid argument", "out of memory" and
    "unsupported configuration"; the numbers are those of ESP-IDF. *)
Definition ESP_OK : esp_err_t := 0.
Definition ESP_ERR_NO_MEM : esp_err_t := 0x101.
Definition ESP_ERR_INVALID_ARG : esp_err_t := 0x102.
Definition ESP_ERR_NOT_SUPPORTED : esp_err_t := 0x106.

(** Modelled from the spec: esp_lcd_panel_commands.h is not among the
    sources.  The command codes and the bits of the memory-access-control
    byte are those of the spec's on-wire command table. *)
Definition LCD_CMD_SWRESET : Z := 0x01.
Definition LCD_CMD_SLPOUT : Z := 0x11.
Definition LCD_CMD_INVOFF : Z := 0x20.
Definition LCD_CMD_INVON : Z := 0x21.
Definition LCD_CMD_DISPOFF : Z := 0x28.
Definition LCD_CMD_DISPON : Z := 0x29.
Definition LCD_CMD_CASET : Z := 0x2A.
Definition LCD_CMD_RASET : Z := 0x2B.
Definition LCD_CMD_RAMWR : Z := 0x2C.
Definition LCD_CMD_MADCTL : Z := 0x36.
Definition LCD_CMD_COLMOD : Z := 0x3A.
Definition LCD_CMD_BGR_BIT : Z := Z.shiftl 1 3.
Definition LCD_CMD_MV_BIT : Z := Z.shiftl 1 5.
Definition LCD_CMD_MX_BIT : Z := Z.shiftl 1 6.
Definition LCD_CMD_MY_BIT : Z := Z.shiftl 1 7.

(** Modelled from the spec: the enumeration of colour orders is declared in
    esp_lcd_types.h, not among the sources; the spec names the two orders
    RGB and BGR, numbered here in that order. *)
Definition LCD_RGB_ENDIAN_RGB : Z := 0.
Definition LCD_RGB_ENDIAN_BGR : Z := 1.

(** ** Calls into the host framework *)

Inductive gpio_mode_t := GPIO_MODE_OUTPUT.

Inductive event :=
| EvCalloc
| EvFree
| EvGpioConfig (mode : gpio_mode_t) (pin_bit_mask : Z)
| EvGpioResetPin (gpio_num : Z)
| EvGpioSetLevel (gpio_num : Z) (level : bool)
| EvDelayMs (ms : Z)
| EvTxParam (io : Z) (lcd_cmd : Z) (param : list Z)
| EvTxColor (io : Z) (lcd_cmd : Z) (color : Z) (color_size : Z).

(** What the driver can observe and hold of its surroundings: the calls made
    so far, the number of live blocks obtained from [calloc], and the GPIO
    pins currently configured. *)
Record world := mkWorld {
  trace : list event;
  live_blocks : nat;
  held_pins : list Z
}.

Definition log (e : event) (w : world) : world :=
  mkWorld (trace w ++ [e]) (live_blocks w) (held_pins w).

(** The pins selected by a [pin_bit_mask] (a [uint64_t]). *)
Definition pins_of_mask (m : Z) : list Z :=
  filter (Z.testbit m) (map Z.of_nat (seq 0 64)).

(** ** State monad with assertion failure *)

Inductive outcome (A : Type) :=
| Returned (a : A)
| AssertFailed.
Arguments Returned {A} a.
Arguments AssertFailed {A}.

Definition ST (S A : Type) : Type := S -> outcome A * S.

Definition ret {S A} (a : A) : ST S A := fun s => (Returned a, s).

Definition bind {S A B} (m : ST S A) (k : A -> ST S B) : ST S B :=
  fun s =>
    match m s with
    | (Returned a, s') => k a s'
    | (AssertFailed, s') => (AssertFailed, s')
    end.

Notation "x <- m ;; k" := (bind m (fun x => k))
  (at level 61, m at next level, right associativity).
Notation "m ;; k" := (bind m (fun _ => k))
  (at level 61, right associativity).

Definition assert {S} (b : bool) : ST S unit :=
  fun s => if b then (Returned tt, s) else (AssertFailed, s).

Definition when {S} (b : bool) (m : ST S unit) : ST S unit :=
  if b then m else ret tt.

(** Modelled from the spec: esp_check.h is not among the sources.
    [ESP_RETURN_ON_ERROR(x, ...)] followed by the rest of the function body:
    a failure "aborts the sequence and is returned immediately".  The
    [ESP_GOTO_ON_FALSE] and [ESP_GOTO_ON_ERROR] of the same header are
    written out where [esp_lcd_new_panel_st7789] uses them: they set [ret]
    and jump to the label. *)
Definition ESP_RETURN_ON_ERROR {S} (x : ST S esp_err_t) (rest : ST S esp_err_t)
  : ST S esp_err_t :=
  err_rc_ <- x ;;
  if err_rc_ =? ESP_OK then rest else ret err_rc_.

(** ** The panel object *)

Record st7789_panel_t := mkPanel {
  io : Z;
  reset_gpio_num : Z;
  reset_level : bool;
  x_gap : Z;
  y_gap : Z;
  fb_bits_per_pixel : Z;
  madctl_val : Z;
  colmod_cal : Z
}.

Module DevConfig.
Record esp_lcd_panel_dev_config_t := mk {
  reset_gpio_num : Z;
  rgb_endian : Z;
  bits_per_pixel : Z;
  reset_active_high : bool
}.
End DevConfig.

(** Field assignments. *)
Definition set_io (p : st7789_panel_t) (v : Z) :=
  mkPanel v (reset_gpio_num p) (reset_level p) (x_gap p) (y_gap p)
          (fb_bits_per_pixel p) (madctl_val p) (colmod_cal p).
Definition set_reset_gpio_num (p : st7789_panel_t) (v : Z) :=
  mkPanel (io p) v (reset_level p) (x_gap p) (y_gap p)
          (fb_bits_per_pixel p) (madctl_val p) (colmod_cal p).
Definition set_reset_level (p : st7789_panel_t) (v : bool) :=
  mkPanel (io p) (reset_gpio_num p) v (x_gap p) (y_gap p)
          (fb_bits_per_pixel p) (madctl_val p) (colmod_cal p).
Definition set_x_gap (p : st7789_panel_t) (v : Z) :=
  mkPanel (io p) (reset_gpio_num p) (reset_level p) v (y_gap p)
          (fb_bits_per_pixel p) (madctl_val p) (colmod_cal p).
Definition set_y_gap (p : st7789_panel_t) (v : Z) :=
  mkPanel (io p) (reset_gpio_num p) (reset_level p) (x_gap p) v
          (fb_bits_per_pixel p) (madctl_val p) (colmod_cal p).
Definition set_fb_bits_per_pixel (p : st7789_panel_t) (v : Z) :=
  mkPanel (io p) (reset_gpio_num p) (reset_level p) (x_gap p) (y_gap p)
          (to_uint8 v) (madctl_val p) (colmod_cal p).
Definition set_madctl_val (p : st7789_panel_t) (v : Z) :=
  mkPanel (io p) (reset_gpio_num p) (reset_level p) (x_gap p) (y_gap p)
          (fb_bits_per_pixel p) (to_uint8 v) (colmod_cal p).
Definition set_colmod_cal (p : st7789_panel_t) (v : Z) :=
  mkPanel (io p) (reset_gpio_num p) (reset_level p) (x_gap p) (y_gap p)
          (fb_bits_per_pixel p) (madctl_val p) (to_uint8 v).

(** [calloc(1, sizeof(st7789_panel_t))]: every field zero. *)
Definition zeroed_panel : st7789_panel_t := mkPanel 0 0 false 0 0 0 0 0.

(** ** The driver *)

Section Driver.

(** The environment: what a call into the host framework returns, given
    the calls made before it.  For [calloc] the value is the address
    ([0] is [NULL]); for the other calls it is an [esp_err_t]. *)
Variable reply : list event -> event -> Z.

Definition call (e : event) : ST world Z :=
  fun w => (Returned (reply (trace w) e), log e w).

(** [calloc(1, sizeof(st7789_panel_t))] and [free]. *)
Definition calloc_panel : ST world (option st7789_panel_t) :=
  fun w =>
    if reply (trace w) EvCalloc =? 0 then (Returned None, log EvCalloc w)
    else (Returned (Some zeroed_panel),
          mkWorld (trace w ++ [EvCalloc]) (S (live_blocks w)) (held_pins w)).

Definition free : ST world unit :=
  fun w => (Returned tt,
            mkWorld (trace w ++ [EvFree]) (Nat.pred (live_blocks w)) (held_pins w)).

(** Modelled from the spec: the GPIO driver is not among the sources.  Its
    contract in the spec is [configureOutput(pin) -> error],
    [setLevel(pin, level) -> error] and [release(pin)].  The codes returned
    are the environment's; a configuration that succeeds holds the pins of
    its mask, a release gives the pin up. *)
Definition gpio_config (mode : gpio_mode_t) (pin_bit_mask : Z) : ST world esp_err_t :=
  fun w =>
    let e := EvGpioConfig mode pin_bit_mask in
    let rc := reply (trace w) e in
    (Returned rc,
     mkWorld (trace w ++ [e]) (live_blocks w)
             (if rc =? ESP_OK then pins_of_mask pin_bit_mask ++ held_pins w
              else held_pins w)).

Definition gpio_reset_pin (gpio_num : Z) : ST world esp_err_t :=
  fun w =>
    let e := EvGpioResetPin gpio_num in
    (Returned (reply (trace w) e),
     mkWorld (trace w ++ [e]) (live_blocks w)
             (remove Z.eq_dec gpio_num (held_pins w))).

Definition gpio_set_level (gpio_num : Z) (level : bool) : ST world esp_err_t :=
  call (EvGpioSetLevel gpio_num level).

(** Modelled from the spec: the delay primitive [sleep(milliseconds)];
    [vTaskDelay(pdMS_TO_TICKS(ms))] is recorded by its length in ms. *)
Definition vTaskDelay_ms (ms : Z) : ST world unit :=
  fun w => (Returned tt, log (EvDelayMs ms) w).

(** Modelled from the spec: the panel I/O layer is not among the sources.
    Its contract in the spec is [sendCommand(cmd, paramBytes) -> error] and
    [sendPixels(cmd, payloadBytes, length) -> error]; the codes returned
    are the environment's. *)
Definition esp_lcd_panel_io_tx_param (io lcd_cmd : Z) (param : list Z)
  : ST world esp_err_t :=
  call (EvTxParam io lcd_cmd param).

Definition esp_lcd_panel_io_tx_color (io lcd_cmd color color_size : Z)
  : ST world esp_err_t :=
  call (EvTxColor io lcd_cmd color color_size).

(** *** Creation *)

(** The [err:] label of [esp_lcd_new_panel_st7789]. *)
Definition new_panel_err (st7789 : option st7789_panel_t)
    (panel_dev_config : DevConfig.esp_lcd_panel_dev_config_t) (ret_ : esp_err_t)
  : ST world (esp_err_t * option st7789_panel_t) :=
  match st7789 with
  | Some _ =>
      when (DevConfig.reset_gpio_num panel_dev_config >=? 0)
           (gpio_reset_pin (DevConfig.reset_gpio_num panel_dev_config) ;; ret tt) ;;
      free ;;
      ret (ret_, None)
  | None => ret (ret_, None)
  end.

(** [io] is a pointer, [0] being [NULL]; [panel_dev_config] is [None] when
    the pointer is [NULL]; [ret_panel] tells whether the out-pointer is
    non-[NULL].  The result is the returned code and what was stored through
    [ret_panel], if anything.  The dispatch table [base] is not modelled. *)
Definition esp_lcd_new_panel_st7789 (io_ : Z)
    (panel_dev_config : option DevConfig.esp_lcd_panel_dev_config_t)
    (ret_panel : bool)
  : ST world (esp_err_t * option st7789_panel_t) :=
  match panel_dev_config with
  | None => ret (ESP_ERR_INVALID_ARG, None)
  | Some cfg =>
    if negb (negb (io_ =? 0) && ret_panel)
    then new_panel_err None cfg ESP_ERR_INVALID_ARG
    else
    st7789 <- calloc_panel ;;
    match st7789 with
    | None => new_panel_err None cfg ESP_ERR_NO_MEM
    | Some p =>
      rc <- (if DevConfig.reset_gpio_num cfg >=? 0
             then gpio_config GPIO_MODE_OUTPUT
                    (Z.shiftl 1 (DevConfig.reset_gpio_num cfg) mod 2 ^ 64)
             else ret ESP_OK) ;;
      if negb (rc =? ESP_OK) then new_panel_err (Some p) cfg rc else
      let endian :=
        if DevConfig.rgb_endian cfg =? LCD_RGB_ENDIAN_RGB
        then Some (set_madctl_val p 0)
        else if DevConfig.rgb_endian cfg =? LCD_RGB_ENDIAN_BGR
        then Some (set_madctl_val p (Z.lor (madctl_val p) LCD_CMD_BGR_BIT))
        else None in
      match endian with
      | None => new_panel_err (Some p) cfg ESP_ERR_NOT_SUPPORTED
      | Some p =>
        let width :=
          if DevConfig.bits_per_pixel cfg =? 16
          then Some (set_colmod_cal p 0x55, 16)
          else if DevConfig.bits_per_pixel cfg =? 18
          then Some (set_colmod_cal p 0x66, 24)
          else None in
        match width with
        | None => new_panel_err (Some p) cfg ESP_ERR_NOT_SUPPORTED
        | Some (p, fb_bits_per_pixel_) =>
          let p := set_io p io_ in
          let p := set_fb_bits_per_pixel p fb_bits_per_pixel_ in
          let p := set_reset_gpio_num p (DevConfig.reset_gpio_num cfg) in
          let p := set_reset_level p (DevConfig.reset_active_high cfg) in
          ret (ESP_OK, Some p)
        end
      end
    end
  end.

(** *** Operations on a created panel *)

Definition pstate : Type := st7789_panel_t * world.

Definition env {A} (m : ST world A) : ST pstate A :=
  fun s => let (r, w') := m (snd s) in (r, (fst s, w')).

Definition get {A} (f : st7789_panel_t -> A) : ST pstate A :=
  fun s => (Returned (f (fst s)), s).

Definition modify (f : st7789_panel_t -> st7789_panel_t) : ST pstate unit :=
  fun s => (Returned tt, (f (fst s), snd s)).

Definition panel_st7789_del : ST pstate esp_err_t :=
  n <- get reset_gpio_num ;;
  when (n >=? 0) (env (gpio_reset_pin n) ;; ret tt) ;;
  env free ;;
  ret ESP_OK.

Definition panel_st7789_reset : ST pstate esp_err_t :=
  io_ <- get io ;;
  n <- get reset_gpio_num ;;
  if n >=? 0 then
    lvl <- get reset_level ;;
    env (gpio_set_level n lvl) ;;
    env (vTaskDelay_ms 10) ;;
    env (gpio_set_level n (negb lvl)) ;;
    env (vTaskDelay_ms 10) ;;
    ret ESP_OK
  else
    ESP_RETURN_ON_ERROR (env (esp_lcd_panel_io_tx_param io_ LCD_CMD_SWRESET []))
      (env (vTaskDelay_ms 20) ;;
       ret ESP_OK).

(** The two analog gamma tables that are compiled in ([ANALOG_GAMMA]
    defined, [GAMMA_CURVE] not). *)
Definition gamma_positive : list Z :=
  [0xf0; 0x04; 0x08; 0x06; 0x08; 0x28; 0x40; 0x43; 0x60; 0x1e; 0x1c; 0x18; 0x35; 0x36].
Definition gamma_negative : list Z :=
  [0xf0; 0x04; 0x08; 0x06; 0x08; 0x28; 0x40; 0x43; 0x60; 0x1e; 0x1c; 0x18; 0x35; 0x36].

Definition panel_st7789_init : ST pstate esp_err_t :=
  io_ <- get io ;;
  ESP_RETURN_ON_ERROR (env (esp_lcd_panel_io_tx_param io_ LCD_CMD_SLPOUT []))
 (env (vTaskDelay_ms 100) ;;
  madctl <- get madctl_val ;;
  ESP_RETURN_ON_ERROR (env (esp_lcd_panel_io_tx_param io_ LCD_CMD_MADCTL [madctl]))
 (colmod <- get colmod_cal ;;
  ESP_RETURN_ON_ERROR (env (esp_lcd_panel_io_tx_param io_ LCD_CMD_COLMOD [colmod]))
 (env (esp_lcd_panel_io_tx_param io_ 0xE0 gamma_positive) ;;
  env (esp_lcd_panel_io_tx_param io_ 0xE1 gamma_negative) ;;
  ret ESP_OK))).

Definition panel_st7789_draw_bitmap (x_start y_start x_end y_end color_data : Z)
  : ST pstate esp_err_t :=
  assert ((x_start <? x_end) && (y_start <? y_end)) ;;
  io_ <- get io ;;
  xg <- get x_gap ;;
  yg <- get y_gap ;;
  let x_start := int_add x_start xg in
  let x_end := int_add x_end xg in
  let y_start := int_add y_start yg in
  let y_end := int_add y_end yg in
  ESP_RETURN_ON_ERROR (env (esp_lcd_panel_io_tx_param io_ LCD_CMD_CASET
    [ to_uint8 (Z.land (Z.shiftr x_start 8) 0xFF);
      to_uint8 (Z.land x_start 0xFF);
      to_uint8 (Z.land (Z.shiftr (int_sub x_end 1) 8) 0xFF);
      to_uint8 (Z.land (int_sub x_end 1) 0xFF) ]))
 (ESP_RETURN_ON_ERROR (env (esp_lcd_panel_io_tx_param io_ LCD_CMD_RASET
    [ to_uint8 (Z.land (Z.shiftr y_start 8) 0xFF);
      to_uint8 (Z.land y_start 0xFF);
      to_uint8 (Z.land (Z.shiftr (int_sub y_end 1) 8) 0xFF);
      to_uint8 (Z.land (int_sub y_end 1) 0xFF) ]))
 (bpp <- get fb_bits_per_pixel ;;
  let len :=
    to_size_t (int_div (int_mul (int_mul (int_sub x_end x_start)
                                         (int_sub y_end y_start)) bpp) 8) in
  ESP_RETURN_ON_ERROR (env (esp_lcd_panel_io_tx_color io_ LCD_CMD_RAMWR color_data len))
 (ret ESP_OK))).

Definition panel_st7789_invert_color (invert_color_data : bool) : ST pstate esp_err_t :=
  io_ <- get io ;;
  let command := if invert_color_data then LCD_CMD_INVON else LCD_CMD_INVOFF in
  ESP_RETURN_ON_ERROR (env (esp_lcd_panel_io_tx_param io_ command []))
 (ret ESP_OK).

Definition panel_st7789_mirror (mirror_x mirror_y : bool) : ST pstate esp_err_t :=
  io_ <- get io ;;
  (if mirror_x
   then modify (fun p => set_madctl_val p (Z.lor (madctl_val p) LCD_CMD_MX_BIT))
   else modify (fun p => set_madctl_val p (Z.land (madctl_val p) (Z.lnot LCD_CMD_MX_BIT)))) ;;
  (if mirror_y
   then modify (fun p => set_madctl_val p (Z.lor (madctl_val p) LCD_CMD_MY_BIT))
   else modify (fun p => set_madctl_val p (Z.land (madctl_val p) (Z.lnot LCD_CMD_MY_BIT)))) ;;
  madctl <- get madctl_val ;;
  ESP_RETURN_ON_ERROR (env (esp_lcd_panel_io_tx_param io_ LCD_CMD_MADCTL [madctl]))
 (ret ESP_OK).

Definition panel_st7789_swap_xy (swap_axes : bool) : ST pstate esp_err_t :=
  io_ <- get io ;;
  (if swap_axes
   then modify (fun p => set_madctl_val p (Z.lor (madctl_val p) LCD_CMD_MV_BIT))
   else modify (fun p => set_madctl_val p (Z.land (madctl_val p) (Z.lnot LCD_CMD_MV_BIT)))) ;;
  madctl <- get madctl_val ;;
  ESP_RETURN_ON_ERROR (env (esp_lcd_panel_io_tx_param io_ LCD_CMD_MADCTL [madctl]))
 (ret ESP_OK).

Definition panel_st7789_set_gap (x_gap_ y_gap_ : Z) : ST pstate esp_err_t :=
  modify (fun p => set_x_gap p x_gap_) ;;
  modify (fun p => set_y_gap p y_gap_) ;;
  ret ESP_OK.

Definition panel_st7789_disp_on_off (on_off : bool) : ST pstate esp_err_t :=
  io_ <- get io ;;
  let command := if on_off then LCD_CMD_DISPON else LCD_CMD_DISPOFF in
  ESP_RETURN_ON_ERROR (env (esp_lcd_panel_io_tx_param io_ command []))
 (ret ESP_OK).

End Driver.

(** ** Reading results *)

(** The world after the calls [evs], resources untouched. *)
Definition emit (w : world) (evs : list event) : world :=
  mkWorld (trace w ++ evs) (live_blocks w) (held_pins w).

(** A sequence of orientation calls made on a created panel. *)
Inductive orient_call :=
| CallMirror (mirror_x mirror_y : bool)
| CallSwapXY (swap_axes : bool).

Definition do_call (reply : list event -> event -> Z) (c : orient_call)
  : ST pstate esp_err_t :=
  match c with
  | CallMirror mirror_x mirror_y => panel_st7789_mirror reply mirror_x mirror_y
  | CallSwapXY swap_axes => panel_st7789_swap_xy reply swap_axes
  end.

Fixpoint run_calls (reply : list event -> event -> Z) (cs : list orient_call)
    (s : pstate) : pstate :=
  match cs with
  | [] => s
  | c :: cs' => run_calls reply cs' (snd (do_call reply c s))
  end.

(** The panel object after an operation. *)
Definition panel_after {A} (r : outcome A * pstate) : st7789_panel_t := fst (snd r).
Definition world_after {A} (r : outcome A * pstate) : world := snd (snd r).

(** The two bytes of a big-endian 16-bit value (the low 16 bits of [v]). *)
Definition be16 (v : Z) : list Z :=
  [(v mod 2 ^ 16) / 2 ^ 8; (v mod 2 ^ 16) mod 2 ^ 8].

(** The length expression of [panel_st7789_draw_bitmap], in the [int]
    arithmetic of the source, at given coordinates. *)
Definition c_payload_len (x_start y_start x_end y_end bits_per_pixel : Z) : Z :=
  to_size_t (int_div (int_mul (int_mul (int_sub x_end x_start)
                                       (int_sub y_end y_start))
                              bits_per_pixel) 8).

(** The call that configures the reset line in [esp_lcd_new_panel_st7789];
    the shift is made on a [uint64_t]. *)
Definition rst_config (cfg : DevConfig.esp_lcd_panel_dev_config_t) : event :=
  EvGpioConfig GPIO_MODE_OUTPUT
    (Z.shiftl 1 (DevConfig.reset_gpio_num cfg) mod 2 ^ 64).

(** A creation request that gets as far as the two [switch] statements:
    the three pointers are there, [calloc] returns a block, and the reset
    line, when there is one, is configured without error. *)
Definition setup_passes (reply : list event -> event -> Z) (io_ : Z)
    (cfg : DevConfig.esp_lcd_panel_dev_config_t) (ret_panel : bool)
    (w : world) : Prop :=
  io_ <> 0 /\ ret_panel = true /\ reply (trace w) EvCalloc <> 0 /\
  (DevConfig.reset_gpio_num cfg >= 0 ->
   reply (trace w ++ [EvCalloc]) (rst_config cfg) = ESP_OK).

(** The panel object the two [switch] statements and the assignments after
    them build from a zeroed block, if the configuration is supported. *)
Definition new_panel_fields (io_ : Z) (cfg : DevConfig.esp_lcd_panel_dev_config_t)
  : option st7789_panel_t :=
  let endian := DevConfig.rgb_endian cfg in
  let bits := DevConfig.bits_per_pixel cfg in
  if ((endian =? LCD_RGB_ENDIAN_RGB) || (endian =? LCD_RGB_ENDIAN_BGR)) &&
     ((bits =? 16) || (bits =? 18))
  then Some (mkPanel io_ (DevConfig.reset_gpio_num cfg)
                     (DevConfig.reset_active_high cfg) 0 0
                     (if bits =? 16 then 16 else 24)
                     (if endian =? LCD_RGB_ENDIAN_RGB then 0 else 0x08)
                     (if bits =? 16 then 0x55 else 0x66))
  else None.

(** [v |= flag] or [v &= ~flag] on a [uint8_t], as the orientation calls
    do it. *)
Definition set_flag (b : bool) (flag v : Z) : Z :=
  to_uint8 (if b then Z.lor v flag else Z.land v (Z.lnot flag)).

(** The lengths of the pixel writes among some calls. *)
Definition pixel_write_lengths (evs : list event) : list Z :=
  flat_map (fun e => match e with
                     | EvTxColor _ _ _ color_size => [color_size]
                     | _ => []
                     end) evs.

(** Two panel objects that differ at most in the gaps and in the three
    orientation bits of [madctl_val]. *)
Definition same_configuration (p p' : st7789_panel_t) : Prop :=
  io p' = io p /\ reset_gpio_num p' = reset_gpio_num p /\
  reset_level p' = reset_level p /\
  fb_bits_per_pixel p' = fb_bits_per_pixel p /\
  colmod_cal p' = colmod_cal p /\
  forall i, 0 <= i < 8 -> i <> 5 -> i <> 6 -> i <> 7 ->
            Z.testbit (madctl_val p') i = Z.testbit (madctl_val p) i.

(** ** Sequences of operations *)

(** The operations a handle offers while the panel object lives. *)
Inductive panel_op :=
| OpReset
| OpInit
| OpDrawBitmap (x_start y_start x_end y_end color_data : Z)
| OpInvertColor (invert_color_data : bool)
| OpMirror (mirror_x mirror_y : bool)
| OpSwapXY (swap_axes : bool)
| OpSetGap (x_gap y_gap : Z)
| OpDispOnOff (on_off : bool).

Definition do_op (reply : list event -> event -> Z) (o : panel_op)
  : ST pstate esp_err_t :=
  match o with
  | OpReset => panel_st7789_reset reply
  | OpInit => panel_st7789_init reply
  | OpDrawBitmap xs ys xe ye d => panel_st7789_draw_bitmap reply xs ys xe ye d
  | OpInvertColor b => panel_st7789_invert_color reply b
  | OpMirror mx my => panel_st7789_mirror reply mx my
  | OpSwapXY b => panel_st7789_swap_xy reply b
  | OpSetGap xg yg => panel_st7789_set_gap xg yg
  | OpDispOnOff b => panel_st7789_disp_on_off reply b
  end.

(** The operations one after the other, whatever each returns; a failed
    assertion ends the run. *)
Fixpoint run_ops (reply : list event -> event -> Z) (ops : list panel_op)
  : ST pstate unit :=
  match ops with
  | [] => ret tt
  | o :: ops' => do_op reply o ;; run_ops reply ops'
  end.

Definition is_set_gap (o : panel_op) : bool :=
  match o with OpSetGap _ _ => true | _ => false end.

(** The byte-wide fields of a panel object are in the range of [uint8_t]. *)
Definition panel_bytes_ok (p : st7789_panel_t) : Prop :=
  0 <= fb_bits_per_pixel p < 256 /\ 0 <= madctl_val p < 256 /\
  0 <= colmod_cal p < 256.

(** The arguments of the last mirror call and of the last swap call of a
    sequence, if there is one. *)
Fixpoint last_mirror (cs : list orient_call) : option (bool * bool) :=
  match cs with
  | [] => None
  | c :: cs' =>
      match last_mirror cs' with
      | Some m => Some m
      | None => match c with
                | CallMirror mx my => Some (mx, my)
                | CallSwapXY _ => None
                end
      end
  end.

Fixpoint last_swap (cs : list orient_call) : option bool :=
  match cs with
  | [] => None
  | c :: cs' =>
      match last_swap cs' with
      | Some b => Some b
      | None => match c with
                | CallSwapXY b => Some b
                | CallMirror _ _ => None
                end
      end
  end.

(** Reading a trace: the time spent in delays, and the calls by
    collaborator. *)
Definition total_delay (evs : list event) : Z :=
  fold_right (fun e acc => match e with
                           | EvDelayMs ms => ms + acc
                           | _ => acc
                           end) 0 evs.

Definition is_transport (e : event) : bool :=
  match e with EvTxParam _ _ _ | EvTxColor _ _ _ _ => true | _ => false end.

Definition is_gpio (e : event) : bool :=
  match e with
  | EvGpioConfig _ _ | EvGpioResetPin _ | EvGpioSetLevel _ _ => true
  | _ => false
  end.

(** The calls an operation on a panel object may make: transport calls on
    the panel's own [io], level changes of its own reset pin, delays. *)
Definition event_of_panel (p : st7789_panel_t) (e : event) : bool :=
  match e with
  | EvTxParam i _ _ | EvTxColor i _ _ _ => i =? io p
  | EvGpioSetLevel n _ => n =? reset_gpio_num p
  | EvDelayMs _ => true
  | EvCalloc | EvFree | EvGpioConfig _ _ | EvGpioResetPin _ => false
  end.

(** The memory-access-control byte made of a colour order and of the
    arguments of the last orientation calls. *)
Definition madctl_of (bgr swap mx my : bool) : Z :=
  Z.lor (Z.lor (Z.lor (if bgr then 0x08 else 0) (if swap then 0x20 else 0))
               (if mx then 0x40 else 0))
        (if my then 0x80 else 0).

(** ** Concrete requests *)

(** An environment in which [calloc] returns a block and every other call
    succeeds, and one whose GPIO driver refuses every configuration. *)
Definition ok_reply : list event -> event -> Z :=
  fun _ e => match e with EvCalloc => 0x3FFB0000 | _ => ESP_OK end.

Definition gpio_failing_reply : list event -> event -> Z :=
  fun _ e => match e with
             | EvCalloc => 0x3FFB0000
             | EvGpioConfig _ _ => ESP_ERR_INVALID_ARG
             | _ => ESP_OK
             end.

(** A transport that accepts every command but the gamma tables. *)
Definition gamma_failing_reply : list event -> event -> Z :=
  fun _ e => match e with
             | EvTxParam _ 0xE0 _ | EvTxParam _ 0xE1 _ => ESP_ERR_NOT_SUPPORTED
             | _ => ESP_OK
             end.

Definition w0 : world := mkWorld [] 0 [].

(** A 16-bit RGB panel without reset line, and an 18-bit BGR panel with its
    reset line on GPIO 4. *)
Definition panel16 : st7789_panel_t := mkPanel 1 (-1) false 0 0 16 0 0x55.
Definition panel18 : st7789_panel_t := mkPanel 1 4 true 0 0 24 0x08 0x66.

Definition cfg_bgr18 : DevConfig.esp_lcd_panel_dev_config_t :=
  DevConfig.mk 4 LCD_RGB_ENDIAN_BGR 18 true.

(** A world in which one block is live and GPIO 4 and 5 are held, a 16-bit
    panel whose orientation bits are all set, and two call sequences that
    end alike. *)
Definition w_held : world := mkWorld [] 1 [4; 5].
Definition panel16_turned : st7789_panel_t := mkPanel 1 (-1) false 0 0 16 0xE0 0x55.
Definition calls_long : list orient_call :=
  [CallSwapXY true; CallSwapXY false; CallMirror true false].
Definition calls_short : list orient_call :=
  [CallMirror true false; CallSwapXY false].

(** * Properties *)

(** ** Arithmetic of the C types *)

Ltac pow2_consts :=
  unfold in_int, INT_MIN, INT_MAX in *;
  change (2 ^ 32) with 4294967296 in *;
  change (2 ^ 31) with 2147483648 in *;
  change (2 ^ 16) with 65536 in *;
  change (2 ^ 8) with 256 in *.

Lemma wrap_int_mod z : wrap_int z mod 2 ^ 32 = z mod 2 ^ 32.
Proof. unfold wrap_int. pow2_consts. Z.div_mod_to_equations. lia. Qed.

Lemma wrap_int_range z : in_int (wrap_int z).
Proof. unfold wrap_int. pow2_consts. Z.div_mod_to_equations. lia. Qed.

Lemma wrap_int_small z : in_int z -> wrap_int z = z.
Proof. unfold wrap_int. pow2_consts. intros. Z.div_mod_to_equations. lia. Qed.

Lemma wrap_int_congr a b : a mod 2 ^ 32 = b mod 2 ^ 32 -> wrap_int a = wrap_int b.
Proof. unfold wrap_int. pow2_consts. intros. Z.div_mod_to_equations. lia. Qed.

Lemma int_sub_add_gap a b g :
  int_sub (int_add a g) (int_add b g) = int_sub a b.
Proof.
  unfold int_sub, int_add. apply wrap_int_congr.
  rewrite Zminus_mod, !wrap_int_mod, <- Zminus_mod. f_equal. lia.
Qed.

Lemma int_mul_wrap_l a b : int_mul (wrap_int a) b = int_mul a b.
Proof.
  unfold int_mul. apply wrap_int_congr.
  now rewrite <- Zmult_mod_idemp_l, wrap_int_mod, Zmult_mod_idemp_l.
Qed.

Lemma int_mul_wrap_r a b : int_mul a (wrap_int b) = int_mul a b.
Proof.
  unfold int_mul. apply wrap_int_congr.
  now rewrite <- Zmult_mod_idemp_r, wrap_int_mod, Zmult_mod_idemp_r.
Qed.

Lemma hi_lo_be16 a v :
  a mod 2 ^ 32 = v mod 2 ^ 32 ->
  [to_uint8 (Z.land (Z.shiftr a 8) 0xFF); to_uint8 (Z.land a 0xFF)] = be16 v.
Proof.
  intros H. unfold to_uint8, be16.
  change 0xFF with (Z.ones 8). rewrite !Z.land_ones, Z.shiftr_div_pow2 by lia.
  pow2_consts. f_equal; [|f_equal]; Z.div_mod_to_equations; lia.
Qed.

Lemma int_add_sub1_mod a g :
  int_sub (int_add a g) 1 mod 2 ^ 32 = (a + g - 1) mod 2 ^ 32.
Proof.
  unfold int_sub, int_add. rewrite wrap_int_mod.
  rewrite Zminus_mod, wrap_int_mod, <- Zminus_mod. reflexivity.
Qed.

(** When the product is representable in [int], the source's length
    expression is the exact quotient. *)
Lemma c_payload_len_exact xs ys xe ye bpp :
  0 <= (xe - xs) * (ye - ys) * bpp <= INT_MAX ->
  c_payload_len xs ys xe ye bpp = (xe - xs) * (ye - ys) * bpp / 8.
Proof.
  intros H. unfold c_payload_len, int_sub.
  rewrite int_mul_wrap_l, int_mul_wrap_r. unfold int_mul at 2.
  rewrite int_mul_wrap_l. unfold int_mul, int_div, to_size_t.
  set (n := (xe - xs) * (ye - ys) * bpp) in *.
  rewrite (wrap_int_small n) by (pow2_consts; lia).
  rewrite Z.quot_div_nonneg by lia.
  assert (0 <= n / 8 <= n) by (Z.div_mod_to_equations; lia).
  rewrite wrap_int_small by (pow2_consts; lia).
  apply Z.mod_small. pow2_consts. lia.
Qed.

(** ** Bits of the memory-access-control byte *)

Lemma testbit_set_flag b k v i :
  0 <= k -> 0 <= i ->
  Z.testbit (set_flag b (Z.shiftl 1 k) v) i =
  if i =? k then b && (i <? 8) else (i <? 8) && Z.testbit v i.
Proof.
  intros Hk Hi. unfold set_flag, to_uint8.
  rewrite Z.testbit_mod_pow2, Z.shiftl_1_l by lia.
  destruct b.
  - rewrite Z.lor_spec, Z.pow2_bits_eqb by lia.
    rewrite (Z.eqb_sym k i).
    destruct (i =? k), (i <? 8), (Z.testbit v i); reflexivity.
  - rewrite Z.land_spec, Z.lnot_spec, Z.pow2_bits_eqb by lia.
    rewrite (Z.eqb_sym k i).
    destruct (i =? k), (i <? 8), (Z.testbit v i); reflexivity.
Qed.

Lemma testbit_set_flag_high b flag v i :
  8 <= i -> Z.testbit (set_flag b flag v) i = false.
Proof.
  intros Hi. unfold set_flag, to_uint8. rewrite Z.testbit_mod_pow2 by lia.
  assert ((i <? 8) = false) as -> by (apply Z.ltb_ge; lia). reflexivity.
Qed.

(** ** GPIO pins *)

Lemma pins_of_mask_bit (m x : Z) :
  In x (pins_of_mask m) -> Z.testbit m x = true.
Proof. unfold pins_of_mask. intros H. apply filter_In in H. tauto. Qed.

Lemma testbit_one_hot (n x : Z) :
  0 <= n -> Z.testbit (Z.shiftl 1 n mod 2 ^ 64) x = true -> x = n.
Proof.
  intros Hn H.
  rewrite Z.testbit_mod_pow2 in H by lia.
  rewrite Z.shiftl_1_l in H. rewrite Z.pow2_bits_eqb in H by lia.
  apply andb_true_iff in H as [_ H]. apply Z.eqb_eq in H. now symmetry.
Qed.

Lemma pins_of_mask_single (n x : Z) :
  0 <= n -> In x (pins_of_mask (Z.shiftl 1 n mod 2 ^ 64)) -> x = n.
Proof. intros Hn H. apply testbit_one_hot, pins_of_mask_bit, H. exact Hn. Qed.

Lemma held_after_release (n : Z) (l : list Z) (x : Z) :
  In x (remove Z.eq_dec n l) -> In x l.
Proof. intros H. apply in_remove in H. tauto. Qed.

Lemma held_after_config_release (n : Z) (l : list Z) (x : Z) :
  0 <= n ->
  In x (remove Z.eq_dec n (pins_of_mask (Z.shiftl 1 n mod 2 ^ 64) ++ l)) ->
  In x l.
Proof.
  intros Hn H. apply in_remove in H as [H Hx].
  apply in_app_or in H as [H|H]; [|exact H].
  apply pins_of_mask_single in H; [contradiction|exact Hn].
Qed.

Lemma new_panel_fields_spec (io_ : Z) (cfg : DevConfig.esp_lcd_panel_dev_config_t)
    (p : st7789_panel_t) :
  new_panel_fields io_ cfg = Some p ->
  (DevConfig.rgb_endian cfg = LCD_RGB_ENDIAN_RGB /\ madctl_val p = 0 \/
   DevConfig.rgb_endian cfg = LCD_RGB_ENDIAN_BGR /\ madctl_val p = LCD_CMD_BGR_BIT) /\
  (DevConfig.bits_per_pixel cfg = 16 /\ colmod_cal p = 0x55 /\
   fb_bits_per_pixel p = 16 \/
   DevConfig.bits_per_pixel cfg = 18 /\ colmod_cal p = 0x66 /\
   fb_bits_per_pixel p = 24) /\
  io p = io_ /\ reset_gpio_num p = DevConfig.reset_gpio_num cfg /\
  reset_level p = DevConfig.reset_active_high cfg /\ x_gap p = 0 /\ y_gap p = 0.
Proof.
  unfold new_panel_fields, LCD_RGB_ENDIAN_RGB, LCD_RGB_ENDIAN_BGR.
  destruct (Z.eqb_spec (DevConfig.rgb_endian cfg) 0) as [E0|E0];
  [|destruct (Z.eqb_spec (DevConfig.rgb_endian cfg) 1) as [E1|E1]];
  (destruct (Z.eqb_spec (DevConfig.bits_per_pixel cfg) 16) as [E16|E16];
   [|destruct (Z.eqb_spec (DevConfig.bits_per_pixel cfg) 18) as [E18|E18]]);
  cbn [orb andb]; intros H; inversion H; subst; cbn; auto 10.
Qed.

Lemma new_panel_fields_none (io_ : Z) (cfg : DevConfig.esp_lcd_panel_dev_config_t) :
  new_panel_fields io_ cfg = None <->
  (DevConfig.rgb_endian cfg <> LCD_RGB_ENDIAN_RGB /\
   DevConfig.rgb_endian cfg <> LCD_RGB_ENDIAN_BGR) \/
  (DevConfig.bits_per_pixel cfg <> 16 /\ DevConfig.bits_per_pixel cfg <> 18).
Proof.
  unfold new_panel_fields, LCD_RGB_ENDIAN_RGB, LCD_RGB_ENDIAN_BGR.
  destruct (Z.eqb_spec (DevConfig.rgb_endian cfg) 0) as [E0|E0];
  [|destruct (Z.eqb_spec (DevConfig.rgb_endian cfg) 1) as [E1|E1]];
  (destruct (Z.eqb_spec (DevConfig.bits_per_pixel cfg) 16) as [E16|E16];
   [|destruct (Z.eqb_spec (DevConfig.bits_per_pixel cfg) 18) as [E18|E18]]);
  cbn [orb andb]; split; intros H; try discriminate; try tauto; try lia.
Qed.

#[local] Arguments wrap_int : simpl never.
#[local] Arguments to_uint8 : simpl never.
#[local] Arguments to_size_t : simpl never.
#[local] Arguments int_add : simpl never.
#[local] Arguments int_sub : simpl never.
#[local] Arguments int_mul : simpl never.
#[local] Arguments int_div : simpl never.
#[local] Arguments be16 : simpl never.
#[local] Arguments c_payload_len : simpl never.
#[local] Arguments set_flag : simpl never.
#[local] Arguments pins_of_mask : simpl never.
#[local] Arguments Z.pow : simpl never.
#[local] Arguments Z.modulo : simpl never.
#[local] Arguments remove : simpl never.
#[local] Arguments Z.eqb : simpl never.
#[local] Arguments Z.geb : simpl never.
#[local] Arguments Z.ltb : simpl never.
#[local] Arguments Z.land : simpl never.
#[local] Arguments Z.lor : simpl never.
#[local] Arguments Z.lnot : simpl never.
#[local] Arguments Z.shiftr : simpl never.
#[local] Arguments Z.shiftl : simpl never.
#[local] Arguments Z.testbit : simpl never.

Ltac run_driver :=
  unfold ESP_RETURN_ON_ERROR, bind, ret, get, modify, env, when, assert,
    esp_lcd_panel_io_tx_param, esp_lcd_panel_io_tx_color, gpio_set_level,
    vTaskDelay_ms, call, LCD_CMD_SWRESET, LCD_CMD_SLPOUT, LCD_CMD_INVOFF,
    LCD_CMD_INVON, LCD_CMD_DISPOFF, LCD_CMD_DISPON, LCD_CMD_CASET,
    LCD_CMD_RASET, LCD_CMD_RAMWR, LCD_CMD_MADCTL, LCD_CMD_COLMOD;
  cbn.

Section Properties.

Variable reply : list event -> event -> Z.

(** C9. [panel_st7789_set_gap] stores the two offsets in [x_gap] and [y_gap],
    leaves every other field of the panel object as it was, makes no call
    into the host framework (the world, with its trace, is unchanged) and
    returns [ESP_OK]. *)
Theorem set_gap_frame (p : st7789_panel_t) (w : world) (xg yg : Z) :
  let r := panel_st7789_set_gap xg yg (p, w) in
  let p' := panel_after r in
  fst r = Returned ESP_OK /\
  x_gap p' = xg /\ y_gap p' = yg /\
  io p' = io p /\ reset_gpio_num p' = reset_gpio_num p /\
  reset_level p' = reset_level p /\
  fb_bits_per_pixel p' = fb_bits_per_pixel p /\
  madctl_val p' = madctl_val p /\ colmod_cal p' = colmod_cal p /\
  world_after r = w.
Proof.
  intros r p'. subst p' r.
  unfold panel_st7789_set_gap, panel_after, world_after. run_driver.
  repeat split.
Qed.

(** C3. [panel_st7789_reset] takes one of two paths, chosen by whether a
    reset pin is configured ([reset_gpio_num >= 0]).  With a pin it drives
    the pin to the active level, waits 10 ms, drives it to the inactive
    level, waits 10 ms, and returns [ESP_OK] whatever the GPIO calls
    return.  Without a pin it sends command 0x01 with no parameter; when
    that succeeds it waits 20 ms and returns [ESP_OK], and when it fails the
    transport's error is returned.  The panel object is unchanged. *)
Theorem reset_paths (p : st7789_panel_t) (w : world) :
  panel_st7789_reset reply (p, w) =
  if reset_gpio_num p >=? 0 then
    (Returned ESP_OK,
     (p, emit w [EvGpioSetLevel (reset_gpio_num p) (reset_level p);
                 EvDelayMs 10;
                 EvGpioSetLevel (reset_gpio_num p) (negb (reset_level p));
                 EvDelayMs 10]))
  else
    let rc := reply (trace w) (EvTxParam (io p) 0x01 []) in
    if rc =? ESP_OK
    then (Returned ESP_OK, (p, emit w [EvTxParam (io p) 0x01 []; EvDelayMs 20]))
    else (Returned rc, (p, emit w [EvTxParam (io p) 0x01 []])).
Proof.
  unfold panel_st7789_reset. run_driver.
  destruct (reset_gpio_num p >=? 0); cbn.
  - unfold log, emit; simpl. now rewrite <- !app_assoc.
  - destruct (reply (trace w) _ =? ESP_OK); cbn; [|reflexivity].
    unfold log, emit; simpl. now rewrite <- !app_assoc.
Qed.

(** C4. [panel_st7789_init] sends 0x11 with no parameter, waits 100 ms,
    sends 0x36 with the current [madctl_val], then 0x3A with the current
    [colmod_cal].  The first of these three commands that fails ends the
    function with the transport's error, nothing more being sent.  After
    them the two gamma tables (0xE0, 0xE1) are sent and [ESP_OK] is
    returned, whatever the transport answers to the gamma commands. *)
Theorem init_sequence (p : st7789_panel_t) (w : world) :
  let slpout := EvTxParam (io p) 0x11 [] in
  let madctl := EvTxParam (io p) 0x36 [madctl_val p] in
  let colmod := EvTxParam (io p) 0x3A [colmod_cal p] in
  let rc1 := reply (trace w) slpout in
  let rc2 := reply (trace w ++ [slpout; EvDelayMs 100]) madctl in
  let rc3 := reply (trace w ++ [slpout; EvDelayMs 100; madctl]) colmod in
  panel_st7789_init reply (p, w) =
  if negb (rc1 =? ESP_OK) then (Returned rc1, (p, emit w [slpout]))
  else if negb (rc2 =? ESP_OK)
  then (Returned rc2, (p, emit w [slpout; EvDelayMs 100; madctl]))
  else if negb (rc3 =? ESP_OK)
  then (Returned rc3, (p, emit w [slpout; EvDelayMs 100; madctl; colmod]))
  else (Returned ESP_OK,
        (p, emit w [slpout; EvDelayMs 100; madctl; colmod;
                    EvTxParam (io p) 0xE0 gamma_positive;
                    EvTxParam (io p) 0xE1 gamma_negative])).
Proof.
  intros slpout madctl colmod rc1 rc2 rc3.
  unfold panel_st7789_init. run_driver.
  fold slpout. fold rc1.
  destruct (rc1 =? ESP_OK); cbn; [|reflexivity].
  rewrite <- !app_assoc; cbn. fold madctl. fold rc2.
  destruct (rc2 =? ESP_OK); cbn.
  2:{ unfold log, emit; simpl. now rewrite <- !app_assoc. }
  rewrite <- !app_assoc; cbn. fold colmod. fold rc3.
  destruct (rc3 =? ESP_OK); cbn.
  2:{ unfold log, emit; simpl. now rewrite <- !app_assoc. }
  unfold log, emit; simpl. now rewrite <- !app_assoc.
Qed.

(** What [panel_st7789_draw_bitmap] does on a region that passes its
    assertion: the three commands, cut short at the first that fails. *)
Lemma draw_bitmap_run (p : st7789_panel_t) (w : world) (xs ys xe ye data : Z) :
  xs < xe -> ys < ye ->
  let col := EvTxParam (io p) 0x2A
               (be16 (xs + x_gap p) ++ be16 (xe + x_gap p - 1)) in
  let row := EvTxParam (io p) 0x2B
               (be16 (ys + y_gap p) ++ be16 (ye + y_gap p - 1)) in
  let wr := EvTxColor (io p) 0x2C data
              (c_payload_len xs ys xe ye (fb_bits_per_pixel p)) in
  let rc1 := reply (trace w) col in
  let rc2 := reply (trace w ++ [col]) row in
  let rc3 := reply (trace w ++ [col; row]) wr in
  panel_st7789_draw_bitmap reply xs ys xe ye data (p, w) =
  if negb (rc1 =? ESP_OK) then (Returned rc1, (p, emit w [col]))
  else if negb (rc2 =? ESP_OK) then (Returned rc2, (p, emit w [col; row]))
  else (Returned rc3, (p, emit w [col; row; wr])).
Proof.
  intros Hx Hy col row wr rc1 rc2 rc3.
  unfold c_payload_len in wr.
  unfold panel_st7789_draw_bitmap. run_driver.
  apply Z.ltb_lt in Hx, Hy. rewrite Hx, Hy. cbn.
  assert (Hcol :
    [to_uint8 (Z.land (Z.shiftr (int_add xs (x_gap p)) 8) 255);
     to_uint8 (Z.land (int_add xs (x_gap p)) 255);
     to_uint8 (Z.land (Z.shiftr (int_sub (int_add xe (x_gap p)) 1) 8) 255);
     to_uint8 (Z.land (int_sub (int_add xe (x_gap p)) 1) 255)] =
    be16 (xs + x_gap p) ++ be16 (xe + x_gap p - 1)).
  { rewrite <- (hi_lo_be16 (int_add xs (x_gap p))) by apply wrap_int_mod.
    rewrite <- (hi_lo_be16 (int_sub (int_add xe (x_gap p)) 1))
      by apply int_add_sub1_mod.
    reflexivity. }
  assert (Hrow :
    [to_uint8 (Z.land (Z.shiftr (int_add ys (y_gap p)) 8) 255);
     to_uint8 (Z.land (int_add ys (y_gap p)) 255);
     to_uint8 (Z.land (Z.shiftr (int_sub (int_add ye (y_gap p)) 1) 8) 255);
     to_uint8 (Z.land (int_sub (int_add ye (y_gap p)) 1) 255)] =
    be16 (ys + y_gap p) ++ be16 (ye + y_gap p - 1)).
  { rewrite <- (hi_lo_be16 (int_add ys (y_gap p))) by apply wrap_int_mod.
    rewrite <- (hi_lo_be16 (int_sub (int_add ye (y_gap p)) 1))
      by apply int_add_sub1_mod.
    reflexivity. }
  rewrite Hcol. fold col. fold rc1.
  destruct (rc1 =? ESP_OK); cbn; [|reflexivity].
  rewrite Hrow. fold row. fold rc2.
  destruct (rc2 =? ESP_OK); cbn.
  2:{ unfold log, emit; cbn. now rewrite <- !app_assoc. }
  rewrite !int_sub_add_gap, <- !app_assoc. cbn. subst rc3 wr.
  match goal with
  | |- context [?c =? ESP_OK] => destruct (c =? ESP_OK) eqn:E
  end; cbn.
  - apply Z.eqb_eq in E. rewrite E.
    unfold log, emit; cbn. now rewrite <- !app_assoc.
  - unfold log, emit; cbn. now rewrite <- !app_assoc.
Qed.

Lemma mirror_madctl (p : st7789_panel_t) (w : world) (mx my : bool) :
  madctl_val (panel_after (panel_st7789_mirror reply mx my (p, w))) =
  set_flag my LCD_CMD_MY_BIT (set_flag mx LCD_CMD_MX_BIT (madctl_val p)).
Proof.
  unfold panel_st7789_mirror, panel_after. run_driver.
  destruct mx, my; cbn;
    match goal with |- context [?c =? ESP_OK] => destruct (c =? ESP_OK) end;
    reflexivity.
Qed.

Lemma swap_xy_madctl (p : st7789_panel_t) (w : world) (sw : bool) :
  madctl_val (panel_after (panel_st7789_swap_xy reply sw (p, w))) =
  set_flag sw LCD_CMD_MV_BIT (madctl_val p).
Proof.
  unfold panel_st7789_swap_xy, panel_after. run_driver.
  destruct sw; cbn;
    match goal with |- context [?c =? ESP_OK] => destruct (c =? ESP_OK) end;
    reflexivity.
Qed.

Lemma mirror_bits (p : st7789_panel_t) (w : world) (mx my : bool) (i : Z) :
  0 <= i < 8 ->
  Z.testbit (madctl_val (panel_after (panel_st7789_mirror reply mx my (p, w)))) i =
  if i =? 6 then mx else if i =? 7 then my else Z.testbit (madctl_val p) i.
Proof.
  intros Hi. rewrite mirror_madctl. unfold LCD_CMD_MY_BIT, LCD_CMD_MX_BIT.
  rewrite !testbit_set_flag by lia.
  assert ((i <? 8) = true) as -> by (apply Z.ltb_lt; lia).
  destruct (Z.eqb_spec i 7), (Z.eqb_spec i 6); subst; try lia;
    rewrite ?andb_true_r; reflexivity.
Qed.

Lemma swap_xy_bits (p : st7789_panel_t) (w : world) (sw : bool) (i : Z) :
  0 <= i < 8 ->
  Z.testbit (madctl_val (panel_after (panel_st7789_swap_xy reply sw (p, w)))) i =
  if i =? 5 then sw else Z.testbit (madctl_val p) i.
Proof.
  intros Hi. rewrite swap_xy_madctl. unfold LCD_CMD_MV_BIT.
  rewrite !testbit_set_flag by lia.
  assert ((i <? 8) = true) as -> by (apply Z.ltb_lt; lia).
  destruct (Z.eqb_spec i 5); rewrite ?andb_true_r; reflexivity.
Qed.

Lemma run_calls_bits (cs : list orient_call) (s : pstate) (i : Z) :
  0 <= i < 8 -> i <> 5 -> i <> 6 -> i <> 7 ->
  Z.testbit (madctl_val (fst (run_calls reply cs s))) i =
  Z.testbit (madctl_val (fst s)) i.
Proof.
  intros Hi H5 H6 H7. revert s.
  induction cs as [|c cs IH]; intros [p w]; [reflexivity|].
  cbn [run_calls]. rewrite IH.
  destruct c as [mx my|sw]; cbn [do_call].
  - fold (panel_after (panel_st7789_mirror reply mx my (p, w))).
    rewrite mirror_bits by lia.
    destruct (Z.eqb_spec i 6), (Z.eqb_spec i 7); try lia. reflexivity.
  - fold (panel_after (panel_st7789_swap_xy reply sw (p, w))).
    rewrite swap_xy_bits by lia.
    destruct (Z.eqb_spec i 5); try lia. reflexivity.
Qed.

(** C6. From any panel state, [mirror(true, false)] followed by
    [swap_xy(true)] and [swap_xy(true)] followed by [mirror(true, false)]
    leave the same [madctl_val], in which bit 6 (mirror X) and bit 5 (swap
    axes) are set and bit 7 (mirror Y) is clear. *)
Theorem mirror_swap_order_independent (p : st7789_panel_t) (w : world) :
  let a := panel_after (panel_st7789_swap_xy reply true
             (snd (panel_st7789_mirror reply true false (p, w)))) in
  let b := panel_after (panel_st7789_mirror reply true false
             (snd (panel_st7789_swap_xy reply true (p, w)))) in
  madctl_val a = madctl_val b /\
  Z.testbit (madctl_val a) 6 = true /\
  Z.testbit (madctl_val a) 5 = true /\
  Z.testbit (madctl_val a) 7 = false.
Proof.
  intros a b.
  destruct (panel_st7789_mirror reply true false (p, w)) as [r1 [p1 w1]] eqn:E1.
  destruct (panel_st7789_swap_xy reply true (p, w)) as [r2 [p2 w2]] eqn:E2.
  assert (H1 : forall i, 0 <= i < 8 -> Z.testbit (madctl_val p1) i =
            if i =? 6 then true else if i =? 7 then false
            else Z.testbit (madctl_val p) i).
  { intros i Hi. rewrite <- (mirror_bits p w true false i Hi), E1. reflexivity. }
  assert (H2 : forall i, 0 <= i < 8 -> Z.testbit (madctl_val p2) i =
            if i =? 5 then true else Z.testbit (madctl_val p) i).
  { intros i Hi. rewrite <- (swap_xy_bits p w true i Hi), E2. reflexivity. }
  assert (Ha : forall i, 0 <= i < 8 -> Z.testbit (madctl_val a) i =
            if i =? 5 then true else Z.testbit (madctl_val p1) i).
  { intros i Hi. unfold a. cbn [snd]. apply swap_xy_bits, Hi. }
  assert (Hb : forall i, 0 <= i < 8 -> Z.testbit (madctl_val b) i =
            if i =? 6 then true else if i =? 7 then false
            else Z.testbit (madctl_val p2) i).
  { intros i Hi. unfold b. cbn [snd]. apply mirror_bits, Hi. }
  split; [|split; [|split]].
  - apply Z.bits_inj'. intros i Hi.
    destruct (Z.lt_ge_cases i 8) as [Hlt|Hge].
    + rewrite Ha, Hb, H1, H2 by lia.
      destruct (Z.eqb_spec i 5), (Z.eqb_spec i 6), (Z.eqb_spec i 7);
        try lia; reflexivity.
    + unfold a, b. cbn [snd].
      rewrite swap_xy_madctl, mirror_madctl.
      now rewrite !testbit_set_flag_high.
  - rewrite Ha, H1 by lia. reflexivity.
  - rewrite Ha by lia. reflexivity.
  - rewrite Ha, H1 by lia. reflexivity.
Qed.

(** C7. [panel_st7789_draw_bitmap] asserts [x_start < x_end] and
    [y_start < y_end].  When the condition fails, the assertion fires with
    the panel and the world as they were: no call into the host framework
    was made, so no column address, row address or pixel write was sent.
    When it holds, the assertion does not fire and the function returns. *)
Theorem draw_bitmap_assertion (p : st7789_panel_t) (w : world)
    (xs ys xe ye data : Z) :
  (~ (xs < xe /\ ys < ye) ->
   panel_st7789_draw_bitmap reply xs ys xe ye data (p, w) = (AssertFailed, (p, w)))
  /\
  (xs < xe /\ ys < ye ->
   exists rc, fst (panel_st7789_draw_bitmap reply xs ys xe ye data (p, w)) =
              Returned rc).
Proof.
  split.
  - intros H. unfold panel_st7789_draw_bitmap. run_driver.
    assert ((xs <? xe) && (ys <? ye) = false) as ->; [|reflexivity].
    apply andb_false_iff.
    destruct (Z.ltb_spec xs xe); [|now left].
    destruct (Z.ltb_spec ys ye); [|now right]. tauto.
  - intros [Hx Hy]. rewrite (draw_bitmap_run p w xs ys xe ye data Hx Hy).
    cbv zeta.
    repeat match goal with
           | |- context [negb ?c] => destruct c; cbn [negb fst]
           end; eexists; reflexivity.
Qed.


(** *** Creation, case by case *)

Lemma new_panel_no_config (io_ : Z) (ret_panel : bool) (w : world) :
  esp_lcd_new_panel_st7789 reply io_ None ret_panel w =
  (Returned (ESP_ERR_INVALID_ARG, None), w).
Proof. reflexivity. Qed.

Lemma new_panel_run (io_ : Z) (cfg : DevConfig.esp_lcd_panel_dev_config_t)
    (ret_panel : bool) (w : world) :
  let pin := DevConfig.reset_gpio_num cfg in
  let rc := reply (trace w ++ [EvCalloc]) (rst_config cfg) in
  esp_lcd_new_panel_st7789 reply io_ (Some cfg) ret_panel w =
  if (io_ =? 0) || negb ret_panel
  then (Returned (ESP_ERR_INVALID_ARG, None), w)
  else if reply (trace w) EvCalloc =? 0
  then (Returned (ESP_ERR_NO_MEM, None), emit w [EvCalloc])
  else if pin >=? 0 then
    if negb (rc =? ESP_OK)
    then (Returned (rc, None),
          mkWorld (trace w ++ [EvCalloc; rst_config cfg; EvGpioResetPin pin; EvFree])
                  (live_blocks w) (remove Z.eq_dec pin (held_pins w)))
    else match new_panel_fields io_ cfg with
         | Some p =>
             (Returned (ESP_OK, Some p),
              mkWorld (trace w ++ [EvCalloc; rst_config cfg])
                      (S (live_blocks w))
                      (pins_of_mask (Z.shiftl 1 pin mod 2 ^ 64) ++ held_pins w))
         | None =>
             (Returned (ESP_ERR_NOT_SUPPORTED, None),
              mkWorld (trace w ++ [EvCalloc; rst_config cfg; EvGpioResetPin pin; EvFree])
                      (live_blocks w)
                      (remove Z.eq_dec pin
                         (pins_of_mask (Z.shiftl 1 pin mod 2 ^ 64) ++ held_pins w)))
         end
  else match new_panel_fields io_ cfg with
       | Some p =>
           (Returned (ESP_OK, Some p),
            mkWorld (trace w ++ [EvCalloc]) (S (live_blocks w)) (held_pins w))
       | None =>
           (Returned (ESP_ERR_NOT_SUPPORTED, None),
            mkWorld (trace w ++ [EvCalloc; EvFree]) (live_blocks w) (held_pins w))
       end.
Proof.
  intros pin rc. subst pin rc. unfold rst_config.
  unfold esp_lcd_new_panel_st7789, new_panel_err, calloc_panel, gpio_config,
    gpio_reset_pin, free, new_panel_fields, LCD_RGB_ENDIAN_RGB, LCD_RGB_ENDIAN_BGR.
  run_driver.
  destruct (io_ =? 0); cbn; [reflexivity|].
  destruct ret_panel; cbn; [|reflexivity].
  destruct (reply (trace w) EvCalloc =? 0); cbn; [reflexivity|].
  destruct (DevConfig.reset_gpio_num cfg >=? 0) eqn:Epin; cbn.
  - match goal with
    | |- context [negb (?c =? ESP_OK)] => destruct (c =? ESP_OK)
    end; cbn.
    + destruct (DevConfig.rgb_endian cfg =? 0);
      [|destruct (DevConfig.rgb_endian cfg =? 1)];
      (destruct (DevConfig.bits_per_pixel cfg =? 16);
       [|destruct (DevConfig.bits_per_pixel cfg =? 18)]);
      cbn; rewrite ?Epin; cbn; rewrite <- ?app_assoc; reflexivity.
    + rewrite ?Epin. cbn. rewrite <- ?app_assoc. reflexivity.
  - change (ESP_OK =? ESP_OK) with true. cbn.
    destruct (DevConfig.rgb_endian cfg =? 0);
    [|destruct (DevConfig.rgb_endian cfg =? 1)];
    (destruct (DevConfig.bits_per_pixel cfg =? 16);
     [|destruct (DevConfig.bits_per_pixel cfg =? 18)]);
    cbn; rewrite ?Epin; cbn; rewrite <- ?app_assoc; reflexivity.
Qed.

(** A handle is stored only by the successful path, and then it is the
    object [new_panel_fields] describes. *)
Lemma new_panel_handle (io_ : Z) (cfg : DevConfig.esp_lcd_panel_dev_config_t)
    (ret_panel : bool) (w : world) (rc : esp_err_t) (p : st7789_panel_t) :
  fst (esp_lcd_new_panel_st7789 reply io_ (Some cfg) ret_panel w) =
    Returned (rc, Some p) ->
  rc = ESP_OK /\ new_panel_fields io_ cfg = Some p.
Proof.
  rewrite new_panel_run. cbv zeta.
  destruct ((io_ =? 0) || negb ret_panel); [discriminate|].
  destruct (reply (trace w) EvCalloc =? 0); [discriminate|].
  destruct (DevConfig.reset_gpio_num cfg >=? 0);
    [destruct (negb (_ =? ESP_OK)); [discriminate|]|];
    destruct (new_panel_fields io_ cfg); cbn [fst]; intros H; inversion H;
    auto.
Qed.

(** When the setup passes, the result is decided by the two switches. *)
Lemma new_panel_after_setup (io_ : Z) (cfg : DevConfig.esp_lcd_panel_dev_config_t)
    (ret_panel : bool) (w : world) :
  setup_passes reply io_ cfg ret_panel w ->
  fst (esp_lcd_new_panel_st7789 reply io_ (Some cfg) ret_panel w) =
  match new_panel_fields io_ cfg with
  | Some p => Returned (ESP_OK, Some p)
  | None => Returned (ESP_ERR_NOT_SUPPORTED, None)
  end.
Proof.
  intros (Hio & Hret & Hcal & Hgpio). rewrite new_panel_run. cbv zeta.
  apply Z.eqb_neq in Hio, Hcal. rewrite Hio, Hret, Hcal. cbn [orb negb].
  destruct (Z.geb_spec (DevConfig.reset_gpio_num cfg) 0) as [Hpin|Hpin].
  - rewrite Hgpio by lia. change (ESP_OK =? ESP_OK) with true. cbn [negb].
    destruct (new_panel_fields io_ cfg); reflexivity.
  - destruct (new_panel_fields io_ cfg); reflexivity.
Qed.

(** C8. Every call of [esp_lcd_new_panel_st7789] returns.  A handle is
    stored exactly when the returned code is [ESP_OK].  When the code is an
    error, the number of live blocks is what it was before the call (the
    block obtained from [calloc], if any, was freed) and no GPIO pin is
    held that was not held before; if the failure came after the
    allocation and a reset pin was requested, the last two calls are
    [gpio_reset_pin] on that pin and [free], and the pin is not held.  The
    code tells the cause: [ESP_ERR_INVALID_ARG] for a missing argument
    (nothing having been done), [ESP_ERR_NO_MEM] when [calloc] fails, the
    code of [gpio_config] when configuring the reset pin fails, and
    [ESP_ERR_NOT_SUPPORTED] for an unsupported colour order or bit depth. *)
Theorem new_panel_failure_unwinds (io_ : Z)
    (pcfg : option DevConfig.esp_lcd_panel_dev_config_t) (ret_panel : bool)
    (w : world) :
  exists rc h w',
    esp_lcd_new_panel_st7789 reply io_ pcfg ret_panel w = (Returned (rc, h), w') /\
    (h = None <-> rc <> ESP_OK) /\
    (rc <> ESP_OK ->
     live_blocks w' = live_blocks w /\
     (forall x, In x (held_pins w') -> In x (held_pins w))) /\
    (io_ = 0 \/ pcfg = None \/ ret_panel = false ->
     rc = ESP_ERR_INVALID_ARG /\ w' = w) /\
    (forall cfg, pcfg = Some cfg -> io_ <> 0 -> ret_panel = true ->
     let pin := DevConfig.reset_gpio_num cfg in
     let gpio_rc := reply (trace w ++ [EvCalloc]) (rst_config cfg) in
     (reply (trace w) EvCalloc = 0 -> rc = ESP_ERR_NO_MEM) /\
     (reply (trace w) EvCalloc <> 0 -> pin >= 0 -> gpio_rc <> ESP_OK ->
      rc = gpio_rc) /\
     (reply (trace w) EvCalloc <> 0 -> (pin >= 0 -> gpio_rc = ESP_OK) ->
      (DevConfig.rgb_endian cfg <> LCD_RGB_ENDIAN_RGB /\
       DevConfig.rgb_endian cfg <> LCD_RGB_ENDIAN_BGR) \/
      (DevConfig.bits_per_pixel cfg <> 16 /\ DevConfig.bits_per_pixel cfg <> 18) ->
      rc = ESP_ERR_NOT_SUPPORTED) /\
     (reply (trace w) EvCalloc <> 0 -> pin >= 0 -> rc <> ESP_OK ->
      ~ In pin (held_pins w') /\
      exists evs, trace w' = trace w ++ evs ++ [EvGpioResetPin pin; EvFree])).
Proof.
  assert (Hne1 : ESP_ERR_INVALID_ARG <> ESP_OK) by discriminate.
  assert (Hne2 : ESP_ERR_NO_MEM <> ESP_OK) by discriminate.
  assert (Hne3 : ESP_ERR_NOT_SUPPORTED <> ESP_OK) by discriminate.
  destruct pcfg as [cfg|];
    [rewrite new_panel_run; cbv zeta
    |rewrite new_panel_no_config].
  1: destruct (Z.eqb_spec io_ 0) as [Hio|Hio]; cbn [orb];
     [|destruct ret_panel; cbn [negb];
       [destruct (Z.eqb_spec (reply (trace w) EvCalloc) 0) as [Hcal|Hcal];
        [|destruct (Z.geb_spec (DevConfig.reset_gpio_num cfg) 0) as [Hpin|Hpin];
          [destruct (Z.eqb_spec (reply (trace w ++ [EvCalloc]) (rst_config cfg)) ESP_OK)
             as [Hg|Hg]; cbn [negb]|];
          try destruct (new_panel_fields io_ cfg) as [p|] eqn:Hf]|]].
  all: do 3 eexists; (split; [reflexivity|]); cbn [live_blocks held_pins trace].
  all: repeat split; intros;
       repeat match goal with
         | H : Some _ = Some _ |- _ => inversion H; subst; clear H
         end;
       try discriminate; try congruence; try tauto; try lia.
  all: try (destruct H as [?|[?|?]]; congruence).
  all: try (apply remove_In).
  all: try (exists [EvCalloc; rst_config cfg0]; reflexivity).
  all: try (eapply held_after_config_release; [|eassumption]; lia).
  all: try (eapply held_after_release; eassumption).
  all: exfalso;
       match goal with
       | H : _ \/ _ |- _ => apply (proj2 (new_panel_fields_none io_ _)) in H
       end; congruence.
Qed.


(** C5. On the byte [madctl_val], [panel_st7789_mirror] sets bit 6 to
    [mirror_x] and bit 7 to [mirror_y] and leaves the six other bits as
    they were; [panel_st7789_swap_xy] sets bit 5 to [swap_axes] and leaves
    the seven other bits as they were.  Hence every bit other than 5, 6
    and 7 is the same after any sequence of these calls; in particular bit
    3 of a panel object stored by [esp_lcd_new_panel_st7789] stays set for
    a BGR request and clear for an RGB one. *)
Theorem orientation_bits_preserved (p : st7789_panel_t) (w : world) :
  (forall mx my i, 0 <= i < 8 ->
     Z.testbit (madctl_val (panel_after (panel_st7789_mirror reply mx my (p, w)))) i =
     if i =? 6 then mx else if i =? 7 then my else Z.testbit (madctl_val p) i) /\
  (forall sw i, 0 <= i < 8 ->
     Z.testbit (madctl_val (panel_after (panel_st7789_swap_xy reply sw (p, w)))) i =
     if i =? 5 then sw else Z.testbit (madctl_val p) i) /\
  (forall cs i, 0 <= i < 8 -> i <> 5 -> i <> 6 -> i <> 7 ->
     Z.testbit (madctl_val (fst (run_calls reply cs (p, w)))) i =
     Z.testbit (madctl_val p) i) /\
  (forall io_ cfg ret_panel w0 rc cs,
     fst (esp_lcd_new_panel_st7789 reply io_ (Some cfg) ret_panel w0) =
       Returned (rc, Some p) ->
     Z.testbit (madctl_val (fst (run_calls reply cs (p, w)))) 3 =
     (DevConfig.rgb_endian cfg =? LCD_RGB_ENDIAN_BGR)).
Proof.
  split; [|split; [|split]].
  - intros mx my i Hi. apply mirror_bits, Hi.
  - intros sw i Hi. apply swap_xy_bits, Hi.
  - intros cs i Hi H5 H6 H7. now rewrite run_calls_bits.
  - intros io_ cfg ret_panel w0 rc cs H.
    rewrite run_calls_bits by lia. cbn [fst].
    apply new_panel_handle in H as [_ Hf].
    apply new_panel_fields_spec in Hf as ([[He Hm]|[He Hm]] & _);
      rewrite He, Hm; reflexivity.
Qed.


End Properties.

(** * The properties at concrete requests *)


(** C7 on an empty region and on a proper one. *)
Lemma draw_bitmap_assertion_witness :
  ~ (10 < 10 /\ 0 < 20) /\
  panel_st7789_draw_bitmap ok_reply 10 0 10 20 77 (panel16, w0) =
    (AssertFailed, (panel16, w0)) /\
  (0 < 10 /\ 0 < 20) /\
  exists rc, fst (panel_st7789_draw_bitmap ok_reply 0 0 10 20 77 (panel16, w0)) =
             Returned rc.
Proof.
  assert (H1 : ~ (10 < 10 /\ 0 < 20)) by lia.
  assert (H2 : 0 < 10 /\ 0 < 20) by lia.
  split; [exact H1|]. split.
  - exact (proj1 (draw_bitmap_assertion ok_reply panel16 w0 10 0 10 20 77) H1).
  - split; [exact H2|].
    exact (proj2 (draw_bitmap_assertion ok_reply panel16 w0 0 0 10 20 77) H2).
Defined.




(** C5 on the BGR panel: the flag survives a mirror call and a swap call. *)
Lemma orientation_bits_preserved_witness :
  0 <= 3 < 8 /\
  Z.testbit (madctl_val (panel_after
    (panel_st7789_mirror ok_reply true true (panel18, w0)))) 3 = true /\
  Z.testbit (madctl_val (panel_after
    (panel_st7789_swap_xy ok_reply true (panel18, w0)))) 3 = true /\
  Z.testbit (madctl_val (fst
    (run_calls ok_reply [CallMirror true false; CallSwapXY true; CallMirror false true]
       (panel18, w0)))) 3 = true.
Proof.
  assert (H : 0 <= 3 < 8) by lia.
  destruct (orientation_bits_preserved ok_reply panel18 w0) as (Hm & Hs & Hc & _).
  split; [exact H|]. split; [|split].
  - exact (Hm true true 3 H).
  - exact (Hs true 3 H).
  - apply (Hc _ 3 H); discriminate.
Defined.

(** C8 on a request whose reset line cannot be configured: the GPIO
    driver's code comes back, without a handle, the block freed, no pin
    held. *)
Lemma new_panel_failure_unwinds_witness :
  exists rc h w',
    esp_lcd_new_panel_st7789 gpio_failing_reply 1 (Some cfg_bgr18) true w0 =
      (Returned (rc, h), w') /\
    rc = ESP_ERR_INVALID_ARG /\ h = None /\ live_blocks w' = 0%nat /\
    forall x, ~ In x (held_pins w').
Proof.
  destruct (new_panel_failure_unwinds gpio_failing_reply 1 (Some cfg_bgr18) true w0)
    as (rc & h & w' & E & Hh & Hres & _ & Hcfg).
  exists rc, h, w'. split; [exact E|].
  destruct (Hcfg cfg_bgr18 eq_refl) as (_ & Hgpio & _); [discriminate|reflexivity|].
  assert (Hrc : rc = ESP_ERR_INVALID_ARG).
  { apply Hgpio; discriminate. }
  assert (Hne : rc <> ESP_OK) by (rewrite Hrc; discriminate).
  split; [exact Hrc|]. split; [apply Hh, Hne|].
  destruct (Hres Hne) as [Hl Hp]. split; [exact Hl|].
  intros x Hx. exact (Hp x Hx).
Defined.

(** The spec's example of a gap: after [set_gap(3, 5)] the addresses of a
    10 x 10 region at the origin are shifted by 3 columns and 5 rows. *)
Example set_gap_then_draw :
  panel_st7789_draw_bitmap ok_reply 0 0 10 10 77
    (snd (panel_st7789_set_gap 3 5 (panel16, w0))) =
  (Returned ESP_OK,
   (mkPanel 1 (-1) false 3 5 16 0 0x55,
    emit w0 [EvTxParam 1 0x2A [0x00; 0x03; 0x00; 0x0C];
             EvTxParam 1 0x2B [0x00; 0x05; 0x00; 0x0E];
             EvTxColor 1 0x2C 77 200])).
Proof. vm_compute. reflexivity. Qed.

(** A transport that rejects both gamma tables still initialises. *)
Example init_ignores_gamma_failure :
  fst (panel_st7789_init gamma_failing_reply (panel18, w0)) = Returned ESP_OK /\
  length (trace (world_after (panel_st7789_init gamma_failing_reply (panel18, w0)))) =
  6%nat.
Proof. vm_compute. split; reflexivity. Qed.

(** Creation and deletion of the 18-bit BGR panel leave nothing behind. *)
Example new_then_del_balanced :
  let r := esp_lcd_new_panel_st7789 ok_reply 1 (Some cfg_bgr18) true w0 in
  fst r = Returned (ESP_OK, Some panel18) /\
  held_pins (snd r) = [4] /\ live_blocks (snd r) = 1%nat /\
  let d := panel_st7789_del ok_reply (panel18, snd r) in
  fst d = Returned ESP_OK /\
  held_pins (world_after d) = [] /\ live_blocks (world_after d) = 0%nat.
Proof. vm_compute. repeat split; reflexivity. Qed.

(** * The remaining operations and how the operations compose *)

Section Coverage.

Variable reply : list event -> event -> Z.

(** ** Closed forms *)

Lemma del_run (p : st7789_panel_t) (w : world) :
  panel_st7789_del reply (p, w) =
  (Returned ESP_OK,
   (p, if reset_gpio_num p >=? 0
       then mkWorld (trace w ++ [EvGpioResetPin (reset_gpio_num p); EvFree])
                    (Nat.pred (live_blocks w))
                    (remove Z.eq_dec (reset_gpio_num p) (held_pins w))
       else mkWorld (trace w ++ [EvFree]) (Nat.pred (live_blocks w))
                    (held_pins w))).
Proof.
  unfold panel_st7789_del, gpio_reset_pin, free. run_driver.
  destruct (reset_gpio_num p >=? 0); cbn; [|reflexivity].
  now rewrite <- app_assoc.
Qed.

Lemma reset_run (p : st7789_panel_t) (w : world) :
  panel_st7789_reset reply (p, w) =
  if reset_gpio_num p >=? 0 then
    (Returned ESP_OK,
     (p, emit w [EvGpioSetLevel (reset_gpio_num p) (reset_level p);
                 EvDelayMs 10;
                 EvGpioSetLevel (reset_gpio_num p) (negb (reset_level p));
                 EvDelayMs 10]))
  else
    if reply (trace w) (EvTxParam (io p) 0x01 []) =? ESP_OK
    then (Returned ESP_OK, (p, emit w [EvTxParam (io p) 0x01 []; EvDelayMs 20]))
    else (Returned (reply (trace w) (EvTxParam (io p) 0x01 [])),
          (p, emit w [EvTxParam (io p) 0x01 []])).
Proof.
  unfold panel_st7789_reset. run_driver.
  destruct (reset_gpio_num p >=? 0); cbn.
  - unfold log, emit; cbn. now rewrite <- !app_assoc.
  - destruct (reply (trace w) _ =? ESP_OK); cbn; [|reflexivity].
    unfold log, emit; cbn. now rewrite <- !app_assoc.
Qed.

Lemma one_command_run (p : st7789_panel_t) (w : world) (cmd : Z) :
  ESP_RETURN_ON_ERROR (env (esp_lcd_panel_io_tx_param reply (io p) cmd []))
    (ret ESP_OK) (p, w) =
  (Returned (reply (trace w) (EvTxParam (io p) cmd [])),
   (p, emit w [EvTxParam (io p) cmd []])).
Proof.
  run_driver.
  destruct (reply (trace w) _ =? ESP_OK) eqn:E; cbn; [|reflexivity].
  apply Z.eqb_eq in E. now rewrite E.
Qed.

Lemma invert_color_run (p : st7789_panel_t) (w : world) (b : bool) :
  let ev := EvTxParam (io p) (if b then 0x21 else 0x20) [] in
  panel_st7789_invert_color reply b (p, w) =
  (Returned (reply (trace w) ev), (p, emit w [ev])).
Proof.
  intros ev. subst ev. rewrite <- one_command_run. destruct b; reflexivity.
Qed.

Lemma disp_on_off_run (p : st7789_panel_t) (w : world) (b : bool) :
  let ev := EvTxParam (io p) (if b then 0x29 else 0x28) [] in
  panel_st7789_disp_on_off reply b (p, w) =
  (Returned (reply (trace w) ev), (p, emit w [ev])).
Proof.
  intros ev. subst ev. rewrite <- one_command_run. destruct b; reflexivity.
Qed.

Lemma mirror_run (p : st7789_panel_t) (w : world) (mx my : bool) :
  let m := set_flag my LCD_CMD_MY_BIT (set_flag mx LCD_CMD_MX_BIT (madctl_val p)) in
  let ev := EvTxParam (io p) 0x36 [m] in
  panel_st7789_mirror reply mx my (p, w) =
  (Returned (reply (trace w) ev),
   (mkPanel (io p) (reset_gpio_num p) (reset_level p) (x_gap p) (y_gap p)
            (fb_bits_per_pixel p) m (colmod_cal p),
    emit w [ev])).
Proof.
  intros m ev. subst m ev. unfold panel_st7789_mirror. run_driver.
  destruct mx, my; cbn;
    match goal with
    | |- context [?c =? ESP_OK] => destruct (c =? ESP_OK) eqn:E
    end; cbn; try reflexivity;
    apply Z.eqb_eq in E; unfold set_flag in *; cbn in *; now rewrite E.
Qed.

Lemma swap_xy_run (p : st7789_panel_t) (w : world) (sw : bool) :
  let m := set_flag sw LCD_CMD_MV_BIT (madctl_val p) in
  let ev := EvTxParam (io p) 0x36 [m] in
  panel_st7789_swap_xy reply sw (p, w) =
  (Returned (reply (trace w) ev),
   (mkPanel (io p) (reset_gpio_num p) (reset_level p) (x_gap p) (y_gap p)
            (fb_bits_per_pixel p) m (colmod_cal p),
    emit w [ev])).
Proof.
  intros m ev. subst m ev. unfold panel_st7789_swap_xy. run_driver.
  destruct sw; cbn;
    match goal with
    | |- context [?c =? ESP_OK] => destruct (c =? ESP_OK) eqn:E
    end; cbn; try reflexivity;
    apply Z.eqb_eq in E; unfold set_flag in *; cbn in *; now rewrite E.
Qed.

(** ** Deleting a panel *)

(** X1. [panel_st7789_del] always returns [ESP_OK], whatever
    [gpio_reset_pin] answers.  It calls [gpio_reset_pin] once on the reset
    pin when there is one ([reset_gpio_num >= 0]) and not at all otherwise,
    then [free] once; it sends nothing over the transport.  Afterwards one
    block less is live, the reset pin is no longer held, and every other
    pin is held exactly when it was before. *)
Theorem del_releases (p : st7789_panel_t) (w : world) :
  let r := panel_st7789_del reply (p, w) in
  let pin := reset_gpio_num p in
  fst r = Returned ESP_OK /\
  trace (world_after r) =
    trace w ++ (if pin >=? 0 then [EvGpioResetPin pin] else []) ++ [EvFree] /\
  live_blocks (world_after r) = Nat.pred (live_blocks w) /\
  (pin >= 0 -> ~ In pin (held_pins (world_after r))) /\
  (forall x, (pin >= 0 -> x <> pin) ->
     (In x (held_pins (world_after r)) <-> In x (held_pins w))).
Proof.
  intros r pin. subst r pin. rewrite del_run. unfold world_after. cbn [fst snd].
  destruct (Z.geb_spec (reset_gpio_num p) 0) as [H|H]; cbn [trace live_blocks held_pins].
  - repeat split; try reflexivity.
    + intros _. apply remove_In.
    + intros Hin. apply in_remove in Hin. tauto.
    + intros Hin. apply in_in_remove; [apply H0; lia|exact Hin].
  - repeat split; try reflexivity; try tauto. lia.
Qed.

(** ** Commands without parameters *)

(** X4. [panel_st7789_invert_color] sends exactly one command, without
    parameter: 0x21 when asked to invert and 0x20 otherwise.  It returns
    what the transport returned for it and leaves the panel object as it
    was. *)
Theorem invert_color_command (p : st7789_panel_t) (w : world) (b : bool) :
  let r := panel_st7789_invert_color reply b (p, w) in
  let ev := EvTxParam (io p) (if b then 0x21 else 0x20) [] in
  panel_after r = p /\ world_after r = emit w [ev] /\
  fst r = Returned (reply (trace w) ev).
Proof.
  intros r ev. subst r ev. rewrite invert_color_run. repeat split.
Qed.

(** X5. [panel_st7789_disp_on_off] sends exactly one command, without
    parameter: 0x29 (display on) when its argument is [true] and 0x28
    (display off) when it is [false].  It returns what the transport
    returned for it and leaves the panel object as it was. *)
Theorem disp_on_off_command (p : st7789_panel_t) (w : world) (b : bool) :
  let r := panel_st7789_disp_on_off reply b (p, w) in
  let ev := EvTxParam (io p) (if b then 0x29 else 0x28) [] in
  panel_after r = p /\ world_after r = emit w [ev] /\
  fst r = Returned (reply (trace w) ev).
Proof.
  intros r ev. subst r ev. rewrite disp_on_off_run. repeat split.
Qed.

(** ** Orientation *)

(** X6. [panel_st7789_mirror] and [panel_st7789_swap_xy] first update
    [madctl_val], then send command 0x36 whose one parameter is the updated
    byte, and return what the transport returned.  The byte is stored
    whether or not the transport accepts the command, and no other field
    of the panel object changes. *)
Theorem orientation_sent_is_stored (p : st7789_panel_t) (w : world) :
  (forall mx my,
     let r := panel_st7789_mirror reply mx my (p, w) in
     let ev := EvTxParam (io p) 0x36 [madctl_val (panel_after r)] in
     world_after r = emit w [ev] /\ fst r = Returned (reply (trace w) ev) /\
     panel_after r =
       set_madctl_val p
         (set_flag my LCD_CMD_MY_BIT (set_flag mx LCD_CMD_MX_BIT (madctl_val p)))) /\
  (forall sw,
     let r := panel_st7789_swap_xy reply sw (p, w) in
     let ev := EvTxParam (io p) 0x36 [madctl_val (panel_after r)] in
     world_after r = emit w [ev] /\ fst r = Returned (reply (trace w) ev) /\
     panel_after r = set_madctl_val p (set_flag sw LCD_CMD_MV_BIT (madctl_val p))).
Proof.
  assert (Hidem : forall b f v, to_uint8 (set_flag b f v) = set_flag b f v).
  { intros b f v. unfold set_flag, to_uint8. apply Z.mod_mod. discriminate. }
  split.
  - intros mx my r ev. subst r ev. rewrite mirror_run.
    unfold panel_after, world_after, set_madctl_val. cbn [fst snd madctl_val].
    rewrite Hidem. repeat split.
  - intros sw r ev. subst r ev. rewrite swap_xy_run.
    unfold panel_after, world_after, set_madctl_val. cbn [fst snd madctl_val].
    rewrite Hidem. repeat split.
Qed.

(** ** Timing of a reset *)

(** X15. A reset that returns [ESP_OK] has spent 20 ms in delays, on
    either path; one that returns an error has spent none, and that only
    happens without a reset pin.  With a reset pin nothing is sent over the
    transport and the result is [ESP_OK]; without one no GPIO call is
    made. *)
Theorem reset_timing (p : st7789_panel_t) (w : world) :
  let r := panel_st7789_reset reply (p, w) in
  exists evs,
    world_after r = emit w evs /\
    (fst r = Returned ESP_OK -> total_delay evs = 20) /\
    (fst r <> Returned ESP_OK -> total_delay evs = 0 /\ reset_gpio_num p < 0) /\
    (reset_gpio_num p >= 0 ->
     fst r = Returned ESP_OK /\ filter is_transport evs = []) /\
    (reset_gpio_num p < 0 -> filter is_gpio evs = []).
Proof.
  intros r. subst r. rewrite reset_run.
  destruct (Z.geb_spec (reset_gpio_num p) 0) as [H|H].
  - eexists. split; [reflexivity|]. cbn. repeat split; try tauto; try lia.
  - destruct (Z.eqb_spec (reply (trace w) (EvTxParam (io p) 1 [])) ESP_OK) as [E|E].
    + eexists. split; [reflexivity|]. cbn. repeat split; try tauto; try lia.
    + eexists. split; [reflexivity|]. cbn. repeat split; try tauto; try lia.
      intros HH. inversion HH. contradiction.
Qed.

Lemma run_calls_last_bits (cs : list orient_call)
    (p : st7789_panel_t) (w : world) (i : Z) :
  0 <= i < 8 ->
  Z.testbit (madctl_val (fst (run_calls reply cs (p, w)))) i =
  if i =? 5 then match last_swap cs with
                 | Some b => b
                 | None => Z.testbit (madctl_val p) 5
                 end
  else if i =? 6 then match last_mirror cs with
                      | Some (mx, _) => mx
                      | None => Z.testbit (madctl_val p) 6
                      end
  else if i =? 7 then match last_mirror cs with
                      | Some (_, my) => my
                      | None => Z.testbit (madctl_val p) 7
                      end
  else Z.testbit (madctl_val p) i.
Proof.
  intros Hi. revert p w.
  induction cs as [|c cs IH]; intros p w.
  - cbn [run_calls last_swap last_mirror fst].
    destruct (Z.eqb_spec i 5), (Z.eqb_spec i 6), (Z.eqb_spec i 7);
      subst; reflexivity.
  - cbn [run_calls last_swap last_mirror].
    destruct (do_call reply c (p, w)) as [o [p1 w1]] eqn:E. cbn [snd].
    rewrite IH.
    assert (Hp1 : forall j, 0 <= j < 8 ->
              Z.testbit (madctl_val p1) j =
              match c with
              | CallMirror mx my =>
                  if j =? 6 then mx else if j =? 7 then my
                  else Z.testbit (madctl_val p) j
              | CallSwapXY b =>
                  if j =? 5 then b else Z.testbit (madctl_val p) j
              end).
    { intros j Hj. destruct c as [mx my|b]; cbn [do_call] in E.
      - rewrite <- (mirror_bits reply p w mx my j Hj). now rewrite E.
      - rewrite <- (swap_xy_bits reply p w b j Hj). now rewrite E. }
    destruct (Z.eqb_spec i 5) as [->|N5];
      [|destruct (Z.eqb_spec i 6) as [->|N6];
        [|destruct (Z.eqb_spec i 7) as [->|N7]]].
    + destruct (last_swap cs); [reflexivity|].
      rewrite Hp1 by lia. destruct c; reflexivity.
    + destruct (last_mirror cs) as [[? ?]|]; [reflexivity|].
      rewrite Hp1 by lia. destruct c; reflexivity.
    + destruct (last_mirror cs) as [[? ?]|]; [reflexivity|].
      rewrite Hp1 by lia. destruct c; reflexivity.
    + rewrite Hp1 by lia. destruct c.
      * destruct (Z.eqb_spec i 6), (Z.eqb_spec i 7); try lia. reflexivity.
      * destruct (Z.eqb_spec i 5); try lia. reflexivity.
Qed.



(** X8. A mirror call and a swap call commute on the stored byte: with any
    arguments, from any panel state and whatever the transport answers,
    both orders leave the same [madctl_val]. *)
Theorem mirror_swap_commute (p : st7789_panel_t) (w : world) (mx my sw : bool) :
  madctl_val (panel_after (panel_st7789_swap_xy reply sw
                 (snd (panel_st7789_mirror reply mx my (p, w))))) =
  madctl_val (panel_after (panel_st7789_mirror reply mx my
                 (snd (panel_st7789_swap_xy reply sw (p, w))))).
Proof.
  destruct (panel_st7789_mirror reply mx my (p, w)) as [r1 [p1 w1]] eqn:E1.
  destruct (panel_st7789_swap_xy reply sw (p, w)) as [r2 [p2 w2]] eqn:E2.
  cbn [snd]. rewrite swap_xy_madctl, mirror_madctl.
  assert (H1 : madctl_val p1 =
               set_flag my LCD_CMD_MY_BIT (set_flag mx LCD_CMD_MX_BIT (madctl_val p))).
  { rewrite <- (mirror_madctl reply p w mx my), E1. reflexivity. }
  assert (H2 : madctl_val p2 = set_flag sw LCD_CMD_MV_BIT (madctl_val p)).
  { rewrite <- (swap_xy_madctl reply p w sw), E2. reflexivity. }
  rewrite H1, H2. unfold LCD_CMD_MY_BIT, LCD_CMD_MX_BIT, LCD_CMD_MV_BIT.
  apply Z.bits_inj'. intros i Hi.
  rewrite !testbit_set_flag by lia.
  destruct (Z.eqb_spec i 5), (Z.eqb_spec i 6), (Z.eqb_spec i 7);
    try lia; destruct (i <? 8), mx, my, sw; reflexivity.
Qed.

(** ** What the operations leave alone *)

Lemma same_configuration_refl (p : st7789_panel_t) : same_configuration p p.
Proof. unfold same_configuration. auto 10. Qed.

Lemma same_configuration_trans (p q r : st7789_panel_t) :
  same_configuration p q -> same_configuration q r -> same_configuration p r.
Proof.
  unfold same_configuration.
  intros (A1 & A2 & A3 & A4 & A5 & A6) (B1 & B2 & B3 & B4 & B5 & B6).
  repeat split; try congruence.
  intros i Hi H5 H6 H7. rewrite B6, A6 by assumption. reflexivity.
Qed.

Lemma set_flag_range (b : bool) (f v : Z) : 0 <= set_flag b f v < 256.
Proof. unfold set_flag, to_uint8. apply Z.mod_pos_bound. reflexivity. Qed.

Lemma init_panel (p : st7789_panel_t) (w : world) :
  panel_after (panel_st7789_init reply (p, w)) = p.
Proof.
  unfold panel_st7789_init, panel_after. run_driver.
  repeat (match goal with
          | |- context [?c =? ESP_OK] => destruct (c =? ESP_OK)
          end; cbn); reflexivity.
Qed.

Lemma reset_panel (p : st7789_panel_t) (w : world) :
  panel_after (panel_st7789_reset reply (p, w)) = p.
Proof.
  rewrite reset_run. unfold panel_after.
  destruct (reset_gpio_num p >=? 0); [reflexivity|].
  destruct (_ =? ESP_OK); reflexivity.
Qed.

Lemma draw_bitmap_rejected (p : st7789_panel_t) (w : world)
    (xs ys xe ye data : Z) :
  (xs <? xe) && (ys <? ye) = false ->
  panel_st7789_draw_bitmap reply xs ys xe ye data (p, w) = (AssertFailed, (p, w)).
Proof.
  intros H. unfold panel_st7789_draw_bitmap. run_driver. now rewrite H.
Qed.

Lemma draw_bitmap_panel (p : st7789_panel_t) (w : world) (xs ys xe ye data : Z) :
  panel_after (panel_st7789_draw_bitmap reply xs ys xe ye data (p, w)) = p.
Proof.
  destruct ((xs <? xe) && (ys <? ye)) eqn:H.
  - apply andb_true_iff in H as [Hx Hy]. apply Z.ltb_lt in Hx, Hy.
    rewrite (draw_bitmap_run reply p w xs ys xe ye data Hx Hy). cbv zeta.
    unfold panel_after.
    repeat match goal with
           | |- context [negb ?c] => destruct c; cbn [negb]
           end; reflexivity.
  - now rewrite draw_bitmap_rejected.
Qed.

(** One operation. *)
Lemma do_op_step (o : panel_op) (p : st7789_panel_t) (w : world) :
  let p' := panel_after (do_op reply o (p, w)) in
  same_configuration p p' /\
  (is_set_gap o = false -> x_gap p' = x_gap p /\ y_gap p' = y_gap p) /\
  (0 <= madctl_val p < 256 -> 0 <= madctl_val p' < 256).
Proof.
  cbv zeta.
  destruct o as [| |xs ys xe ye d|b|mx my|b|xg yg|b]; cbn [do_op is_set_gap].
  - rewrite reset_panel. auto using same_configuration_refl.
  - rewrite init_panel. auto using same_configuration_refl.
  - rewrite draw_bitmap_panel. auto using same_configuration_refl.
  - rewrite invert_color_run. unfold panel_after. cbn [fst snd].
    auto using same_configuration_refl.
  - pose proof (mirror_bits reply p w mx my) as Hb.
    rewrite mirror_run in *. unfold panel_after in *.
    cbn [fst snd io reset_gpio_num reset_level x_gap y_gap fb_bits_per_pixel
         madctl_val colmod_cal] in *.
    split; [|split; [auto|intros _; apply set_flag_range]].
    unfold same_configuration.
    cbn [io reset_gpio_num reset_level fb_bits_per_pixel madctl_val colmod_cal].
    repeat split. intros i Hi H5 H6 H7. rewrite Hb by exact Hi.
    destruct (Z.eqb_spec i 6), (Z.eqb_spec i 7); try lia. reflexivity.
  - pose proof (swap_xy_bits reply p w b) as Hb.
    rewrite swap_xy_run in *. unfold panel_after in *.
    cbn [fst snd io reset_gpio_num reset_level x_gap y_gap fb_bits_per_pixel
         madctl_val colmod_cal] in *.
    split; [|split; [auto|intros _; apply set_flag_range]].
    unfold same_configuration.
    cbn [io reset_gpio_num reset_level fb_bits_per_pixel madctl_val colmod_cal].
    repeat split. intros i Hi H5 H6 H7. rewrite Hb by exact Hi.
    destruct (Z.eqb_spec i 5); try lia. reflexivity.
  - unfold panel_after, panel_st7789_set_gap. run_driver.
    split; [|split; [discriminate|auto]].
    unfold same_configuration. cbn. auto 10.
  - rewrite disp_on_off_run. unfold panel_after. cbn [fst snd].
    auto using same_configuration_refl.
Qed.

Lemma run_ops_cons (o : panel_op) (ops : list panel_op) (s : pstate) :
  run_ops reply (o :: ops) s =
  match do_op reply o s with
  | (Returned _, s') => run_ops reply ops s'
  | (AssertFailed, s') => (AssertFailed, s')
  end.
Proof. reflexivity. Qed.

(** X9. Whatever operations are run on a panel object, in any number and
    order and whatever they return, [io], [reset_gpio_num], [reset_level],
    [fb_bits_per_pixel] and [colmod_cal] stay what they were, and so does
    every bit of [madctl_val] other than bits 5, 6 and 7 (the colour order
    among them); the gaps stay what they were unless [set_gap] is among
    the operations. *)
Theorem operations_keep_configuration (ops : list panel_op)
    (p : st7789_panel_t) (w : world) :
  let p' := panel_after (run_ops reply ops (p, w)) in
  same_configuration p p' /\
  (forallb (fun o => negb (is_set_gap o)) ops = true ->
   x_gap p' = x_gap p /\ y_gap p' = y_gap p).
Proof.
  revert p w. induction ops as [|o ops IH]; intros p w p'.
  - subst p'. cbn. auto using same_configuration_refl.
  - subst p'. rewrite run_ops_cons.
    destruct (do_op_step o p w) as (Hc & Hg & _).
    destruct (do_op reply o (p, w)) as [[a|] [p1 w1]] eqn:E;
      unfold panel_after in Hc, Hg; cbn [fst snd] in Hc, Hg.
    + destruct (IH p1 w1) as [Hc' Hg']. split.
      * eapply same_configuration_trans; eassumption.
      * cbn [forallb]. intros H. apply andb_true_iff in H as [H1 H2].
        apply negb_true_iff in H1.
        destruct (Hg H1) as [G1 G2]. destruct (Hg' H2) as [G3 G4].
        split; congruence.
    + unfold panel_after. cbn [fst snd]. split; [exact Hc|].
      cbn [forallb]. intros H. apply andb_true_iff in H as [H1 _].
      apply negb_true_iff in H1. apply Hg, H1.
Qed.

(** X10. The byte-wide fields never leave the range of [uint8_t]: they
    are in range in every panel object that [esp_lcd_new_panel_st7789]
    stores, and they stay in range under any operations. *)
Theorem bytes_stay_in_range :
  (forall io_ cfg ret_panel w rc p,
     fst (esp_lcd_new_panel_st7789 reply io_ (Some cfg) ret_panel w) =
       Returned (rc, Some p) ->
     panel_bytes_ok p) /\
  (forall ops p w,
     panel_bytes_ok p ->
     panel_bytes_ok (panel_after (run_ops reply ops (p, w)))).
Proof.
  split.
  - intros io_ cfg ret_panel w rc p H.
    apply new_panel_handle in H as [_ Hf].
    apply new_panel_fields_spec in Hf as (He & Hb & _).
    unfold panel_bytes_ok. unfold LCD_CMD_BGR_BIT in He.
    change (Z.shiftl 1 3) with 8 in He.
    destruct He as [[_ ->]|[_ ->]];
      destruct Hb as [(_ & -> & ->)|(_ & -> & ->)]; lia.
  - induction ops as [|o ops IH]; intros p w Hok.
    + exact Hok.
    + rewrite run_ops_cons.
      destruct (do_op_step o p w) as (Hc & _ & Hm).
      destruct (do_op reply o (p, w)) as [[a|] [p1 w1]] eqn:E;
        unfold panel_after in Hc, Hm; cbn [fst snd] in Hc, Hm;
        destruct Hc as (_ & _ & _ & Hfb & Hcm & _);
        destruct Hok as (O1 & O2 & O3);
        assert (Hok1 : panel_bytes_ok p1)
          by (unfold panel_bytes_ok; rewrite Hfb, Hcm; auto).
      * apply IH, Hok1.
      * exact Hok1.
Qed.

(** ** Drawing *)

Lemma be16_bytes (v : Z) :
  exists h l, be16 v = [h; l] /\ 0 <= h < 256 /\ 0 <= l < 256 /\
              h * 256 + l = v mod 65536.
Proof.
  unfold be16. do 2 eexists. split; [reflexivity|].
  change (2 ^ 16) with 65536. change (2 ^ 8) with 256.
  repeat split; Z.div_mod_to_equations; lia.
Qed.

(** The calls of a draw that passes its assertion. *)
Lemma draw_bitmap_shape (p : st7789_panel_t) (w : world) (xs ys xe ye data : Z) :
  xs < xe -> ys < ye ->
  let r := panel_st7789_draw_bitmap reply xs ys xe ye data (p, w) in
  let col := EvTxParam (io p) 0x2A
               (be16 (xs + x_gap p) ++ be16 (xe + x_gap p - 1)) in
  let row := EvTxParam (io p) 0x2B
               (be16 (ys + y_gap p) ++ be16 (ye + y_gap p - 1)) in
  let len := c_payload_len xs ys xe ye (fb_bits_per_pixel p) in
  exists evs,
    world_after r = emit w (col :: evs) /\
    (reply (trace w) col = ESP_OK -> exists evs', evs = row :: evs') /\
    (forall l, In l (pixel_write_lengths (col :: evs)) -> l = len) /\
    (fst r = Returned ESP_OK -> pixel_write_lengths (col :: evs) = [len]).
Proof.
  intros Hx Hy r col row len. subst r.
  rewrite (draw_bitmap_run reply p w xs ys xe ye data Hx Hy). cbv zeta.
  fold col. fold row. fold len. unfold world_after.
  destruct (Z.eqb_spec (reply (trace w) col) ESP_OK) as [E1|E1]; cbn [negb].
  2:{ exists []. cbn [fst snd]. split; [reflexivity|]. split; [tauto|].
      cbn. split; [tauto|]. intros H. inversion H. contradiction. }
  destruct (Z.eqb_spec (reply (trace w ++ [col]) row) ESP_OK) as [E2|E2]; cbn [negb].
  2:{ exists [row]. cbn [fst snd]. split; [reflexivity|].
      split; [eauto|]. cbn. split; [tauto|].
      intros H. inversion H. contradiction. }
  eexists. cbn [fst snd]. split; [reflexivity|]. split; [eauto|].
  cbn. split; [|reflexivity]. intros l [H|[]]. now symmetry.
Qed.

Lemma run_calls_geometry (cs : list orient_call) (p : st7789_panel_t) (w : world) :
  let p' := fst (run_calls reply cs (p, w)) in
  io p' = io p /\ x_gap p' = x_gap p /\ y_gap p' = y_gap p /\
  fb_bits_per_pixel p' = fb_bits_per_pixel p.
Proof.
  cbv zeta. revert p w. induction cs as [|c cs IH]; intros p w.
  - cbn. auto.
  - cbn [run_calls].
    destruct c as [mx my|b]; cbn [do_call];
      [rewrite mirror_run|rewrite swap_xy_run]; cbn [snd];
      match goal with
      | |- context [run_calls reply cs (?q, ?v)] =>
          destruct (IH q v) as (-> & -> & -> & ->)
      end; cbn; auto.
Qed.

(** X11. What a draw sends and returns depends on the panel object only
    through [io], the two gaps and [fb_bits_per_pixel].  In particular the
    driver does not exchange or reflect coordinates itself: after any
    mirror and swap calls a draw makes the same calls, with the same
    result, as it would have made without them. *)
Theorem draw_ignores_orientation (p p' : st7789_panel_t) (w : world)
    (xs ys xe ye data : Z) :
  (io p' = io p -> x_gap p' = x_gap p -> y_gap p' = y_gap p ->
   fb_bits_per_pixel p' = fb_bits_per_pixel p ->
   fst (panel_st7789_draw_bitmap reply xs ys xe ye data (p', w)) =
     fst (panel_st7789_draw_bitmap reply xs ys xe ye data (p, w)) /\
   world_after (panel_st7789_draw_bitmap reply xs ys xe ye data (p', w)) =
     world_after (panel_st7789_draw_bitmap reply xs ys xe ye data (p, w))) /\
  (forall cs w0,
     let s := run_calls reply cs (p, w0) in
     fst (panel_st7789_draw_bitmap reply xs ys xe ye data (fst s, w)) =
       fst (panel_st7789_draw_bitmap reply xs ys xe ye data (p, w)) /\
     world_after (panel_st7789_draw_bitmap reply xs ys xe ye data (fst s, w)) =
       world_after (panel_st7789_draw_bitmap reply xs ys xe ye data (p, w))).
Proof.
  assert (Hagree : forall q,
    io q = io p -> x_gap q = x_gap p -> y_gap q = y_gap p ->
    fb_bits_per_pixel q = fb_bits_per_pixel p ->
    fst (panel_st7789_draw_bitmap reply xs ys xe ye data (q, w)) =
      fst (panel_st7789_draw_bitmap reply xs ys xe ye data (p, w)) /\
    world_after (panel_st7789_draw_bitmap reply xs ys xe ye data (q, w)) =
      world_after (panel_st7789_draw_bitmap reply xs ys xe ye data (p, w))).
  { intros q H1 H2 H3 H4.
    destruct ((xs <? xe) && (ys <? ye)) eqn:H.
    - apply andb_true_iff in H as [Hx Hy]. apply Z.ltb_lt in Hx, Hy.
      rewrite (draw_bitmap_run reply q w xs ys xe ye data Hx Hy).
      rewrite (draw_bitmap_run reply p w xs ys xe ye data Hx Hy).
      cbv zeta. rewrite H1, H2, H3, H4. unfold world_after.
      repeat match goal with
             | |- context [negb ?c] => destruct c; cbn [negb]
             end; split; reflexivity.
    - rewrite !draw_bitmap_rejected by exact H. split; reflexivity. }
  split; [apply Hagree|].
  intros cs w0 s. subst s.
  destruct (run_calls_geometry cs p w0) as (G1 & G2 & G3 & G4).
  apply Hagree; assumption.
Qed.

(** X12. On a region that passes the assertion, the first call of a draw
    is command 0x2A with four parameters, each a byte; the first two,
    read as a big-endian number, are the start column plus the gap modulo
    2^16, the last two the end column plus the gap minus one modulo 2^16
    (hence the numbers themselves when they fit in 16 bits).  When the
    transport accepts it, the next call is command 0x2B with the rows
    encoded the same way. *)
Theorem draw_bitmap_address_bytes (p : st7789_panel_t) (w : world)
    (xs ys xe ye data : Z) :
  xs < xe -> ys < ye ->
  let r := panel_st7789_draw_bitmap reply xs ys xe ye data (p, w) in
  exists c0 c1 c2 c3 rest,
    trace (world_after r) =
      trace w ++ EvTxParam (io p) 0x2A [c0; c1; c2; c3] :: rest /\
    (0 <= c0 < 256 /\ 0 <= c1 < 256 /\ 0 <= c2 < 256 /\ 0 <= c3 < 256) /\
    c0 * 256 + c1 = (xs + x_gap p) mod 65536 /\
    c2 * 256 + c3 = (xe + x_gap p - 1) mod 65536 /\
    (reply (trace w) (EvTxParam (io p) 0x2A [c0; c1; c2; c3]) = ESP_OK ->
     exists r0 r1 r2 r3 rest',
       rest = EvTxParam (io p) 0x2B [r0; r1; r2; r3] :: rest' /\
       (0 <= r0 < 256 /\ 0 <= r1 < 256 /\ 0 <= r2 < 256 /\ 0 <= r3 < 256) /\
       r0 * 256 + r1 = (ys + y_gap p) mod 65536 /\
       r2 * 256 + r3 = (ye + y_gap p - 1) mod 65536).
Proof.
  intros Hx Hy r.
  destruct (draw_bitmap_shape p w xs ys xe ye data Hx Hy) as (evs & Hw & Hrow & _).
  fold r in Hw. rewrite Hw. cbn [emit trace].
  destruct (be16_bytes (xs + x_gap p)) as (c0 & c1 & K0 & B0 & B1 & E01).
  destruct (be16_bytes (xe + x_gap p - 1)) as (c2 & c3 & K1 & B2 & B3 & E23).
  destruct (be16_bytes (ys + y_gap p)) as (r0 & r1 & K2 & D0 & D1 & F01).
  destruct (be16_bytes (ye + y_gap p - 1)) as (r2 & r3 & K3 & D2 & D3 & F23).
  rewrite K0, K1 in *. rewrite K2, K3 in Hrow. cbn [app] in *.
  exists c0, c1, c2, c3, evs. split; [reflexivity|]. repeat split; try tauto.
  intros Hok. destruct (Hrow Hok) as [evs' ->].
  exists r0, r1, r2, r3, evs'. repeat split; tauto.
Qed.

(** X14. A panel created for 16 bits per pixel is written with two bytes
    per pixel and one created for 18 bits with three: on such a panel a
    draw of a region whose pixel count times 24 fits in [int] writes
    exactly (number of pixels) times 2, respectively 3, bytes. *)
Theorem bytes_per_pixel (io_ : Z) (cfg : DevConfig.esp_lcd_panel_dev_config_t)
    (ret_panel : bool) (w0 w : world) (rc : esp_err_t) (p : st7789_panel_t)
    (xs ys xe ye data : Z) :
  fst (esp_lcd_new_panel_st7789 reply io_ (Some cfg) ret_panel w0) =
    Returned (rc, Some p) ->
  xs < xe -> ys < ye ->
  (xe - xs) * (ye - ys) * 24 <= INT_MAX ->
  let r := panel_st7789_draw_bitmap reply xs ys xe ye data (p, w) in
  let len := (xe - xs) * (ye - ys) *
             (if DevConfig.bits_per_pixel cfg =? 16 then 2 else 3) in
  exists evs,
    world_after r = emit w evs /\
    (forall l, In l (pixel_write_lengths evs) -> l = len) /\
    (fst r = Returned ESP_OK -> pixel_write_lengths evs = [len]).
Proof.
  intros Hc Hx Hy Hn r len.
  apply new_panel_handle in Hc as [_ Hf].
  apply new_panel_fields_spec in Hf as (_ & Hb & _).
  destruct (draw_bitmap_shape p w xs ys xe ye data Hx Hy)
    as (evs & Hw & _ & Hall & Hone).
  assert (Hlen : c_payload_len xs ys xe ye (fb_bits_per_pixel p) = len).
  { subst len. set (k := (xe - xs) * (ye - ys)) in *.
    assert (0 < k) by (subst k; nia).
    destruct Hb as [(-> & _ & ->)|(-> & _ & ->)].
    - rewrite c_payload_len_exact by (fold k; pow2_consts; lia).
      fold k. change (16 =? 16) with true. cbv iota.
      Z.div_mod_to_equations. lia.
    - rewrite c_payload_len_exact by (fold k; pow2_consts; lia).
      fold k. change (18 =? 16) with false. cbv iota.
      Z.div_mod_to_equations. lia. }
  rewrite Hlen in Hall, Hone. eauto.
Qed.

(** X17. A panel object that [esp_lcd_new_panel_st7789] stores has both
    gaps at zero and the caller's [io]; until [set_gap] is called, a draw
    on it therefore addresses the caller's own coordinates: 0x2A carries
    the start column and the end column minus one, and 0x2B, when 0x2A was
    accepted, the start row and the end row minus one. *)
Theorem new_panel_draws_unshifted (io_ : Z)
    (cfg : DevConfig.esp_lcd_panel_dev_config_t) (ret_panel : bool)
    (w0 w : world) (rc : esp_err_t) (p : st7789_panel_t)
    (xs ys xe ye data : Z) :
  fst (esp_lcd_new_panel_st7789 reply io_ (Some cfg) ret_panel w0) =
    Returned (rc, Some p) ->
  xs < xe -> ys < ye ->
  let r := panel_st7789_draw_bitmap reply xs ys xe ye data (p, w) in
  let col := EvTxParam io_ 0x2A (be16 xs ++ be16 (xe - 1)) in
  let row := EvTxParam io_ 0x2B (be16 ys ++ be16 (ye - 1)) in
  x_gap p = 0 /\ y_gap p = 0 /\
  exists rest,
    trace (world_after r) = trace w ++ col :: rest /\
    (reply (trace w) col = ESP_OK -> exists rest', rest = row :: rest').
Proof.
  intros Hc Hx Hy r col row.
  apply new_panel_handle in Hc as [_ Hf].
  apply new_panel_fields_spec in Hf as (_ & _ & Hio & _ & _ & Hxg & Hyg).
  split; [exact Hxg|]. split; [exact Hyg|].
  destruct (draw_bitmap_shape p w xs ys xe ye data Hx Hy)
    as (evs & Hw & Hrow & _).
  rewrite Hio, Hxg, !Z.add_0_r in Hw.
  rewrite Hio, Hxg, Hyg, !Z.add_0_r in Hrow.
  exists evs. fold r in Hw. rewrite Hw. split; [reflexivity|exact Hrow].
Qed.

(** ** Creation followed by other operations *)

Lemma new_panel_success_world (io_ : Z)
    (cfg : DevConfig.esp_lcd_panel_dev_config_t) (ret_panel : bool)
    (w w1 : world) (rc : esp_err_t) (p : st7789_panel_t) :
  esp_lcd_new_panel_st7789 reply io_ (Some cfg) ret_panel w =
    (Returned (rc, Some p), w1) ->
  setup_passes reply io_ cfg ret_panel w /\
  w1 = (if DevConfig.reset_gpio_num cfg >=? 0
        then mkWorld (trace w ++ [EvCalloc; rst_config cfg])
                     (S (live_blocks w))
                     (pins_of_mask (Z.shiftl 1 (DevConfig.reset_gpio_num cfg)
                                    mod 2 ^ 64) ++ held_pins w)
        else mkWorld (trace w ++ [EvCalloc]) (S (live_blocks w)) (held_pins w)).
Proof.
  rewrite new_panel_run. cbv zeta. unfold setup_passes.
  destruct (Z.eqb_spec io_ 0) as [Hio|Hio]; cbn [orb]; [discriminate|].
  destruct ret_panel; cbn [negb]; [|discriminate].
  destruct (Z.eqb_spec (reply (trace w) EvCalloc) 0) as [Hcal|Hcal];
    [discriminate|].
  destruct (Z.geb_spec (DevConfig.reset_gpio_num cfg) 0) as [Hpin|Hpin].
  - destruct (Z.eqb_spec (reply (trace w ++ [EvCalloc]) (rst_config cfg)) ESP_OK)
      as [Hg|Hg]; cbn [negb]; [|discriminate].
    destruct (new_panel_fields io_ cfg); intros H; inversion H; subst.
    repeat split; auto.
  - destruct (new_panel_fields io_ cfg); intros H; inversion H; subst.
    repeat split; auto. lia.
Qed.

(** X2. Creating a panel and then deleting it leaves no resource behind:
    after a successful [esp_lcd_new_panel_st7789] one more block is live,
    and [panel_st7789_del] on the stored object returns [ESP_OK] with the
    number of live blocks back to what it was before the creation, the
    reset pin not held, and no pin held that was not held before. *)
Theorem new_then_del_restores (io_ : Z)
    (pcfg : option DevConfig.esp_lcd_panel_dev_config_t) (ret_panel : bool)
    (w w1 : world) (rc : esp_err_t) (p : st7789_panel_t) :
  esp_lcd_new_panel_st7789 reply io_ pcfg ret_panel w =
    (Returned (rc, Some p), w1) ->
  let r := panel_st7789_del reply (p, w1) in
  live_blocks w1 = S (live_blocks w) /\
  fst r = Returned ESP_OK /\
  live_blocks (world_after r) = live_blocks w /\
  (forall x, In x (held_pins (world_after r)) -> In x (held_pins w)) /\
  (reset_gpio_num p >= 0 ->
   ~ In (reset_gpio_num p) (held_pins (world_after r))).
Proof.
  intros H r. subst r.
  destruct pcfg as [cfg|]; [|rewrite new_panel_no_config in H; discriminate].
  pose proof (f_equal fst H) as Hfst. cbn [fst] in Hfst.
  apply new_panel_handle in Hfst as [_ Hf].
  apply new_panel_fields_spec in Hf as (_ & _ & _ & Hpin & _).
  apply new_panel_success_world in H as [_ ->].
  rewrite del_run. unfold world_after. cbn [fst snd]. rewrite Hpin.
  destruct (Z.geb_spec (DevConfig.reset_gpio_num cfg) 0) as [Hp|Hp];
    cbn [trace live_blocks held_pins].
  - repeat split; try reflexivity.
    + intros x Hx. eapply held_after_config_release; [|exact Hx]. lia.
    + intros _. apply remove_In.
  - repeat split; try reflexivity; try tauto. lia.
Qed.

(** X3. The reset path of a panel is fixed by the request it was created
    from: a panel created with [reset_gpio_num >= 0] is reset by driving
    that pin to [reset_active_high], waiting 10 ms, driving it to the
    opposite level and waiting 10 ms; a panel created with a negative
    [reset_gpio_num] is reset by command 0x01 sent on the [io] given at
    creation. *)
Theorem new_panel_reset_path (io_ : Z)
    (cfg : DevConfig.esp_lcd_panel_dev_config_t) (ret_panel : bool)
    (w0 w : world) (rc : esp_err_t) (p : st7789_panel_t) :
  fst (esp_lcd_new_panel_st7789 reply io_ (Some cfg) ret_panel w0) =
    Returned (rc, Some p) ->
  let pin := DevConfig.reset_gpio_num cfg in
  let level := DevConfig.reset_active_high cfg in
  let swreset := EvTxParam io_ 0x01 [] in
  panel_st7789_reset reply (p, w) =
  if pin >=? 0 then
    (Returned ESP_OK,
     (p, emit w [EvGpioSetLevel pin level; EvDelayMs 10;
                 EvGpioSetLevel pin (negb level); EvDelayMs 10]))
  else if reply (trace w) swreset =? ESP_OK
  then (Returned ESP_OK, (p, emit w [swreset; EvDelayMs 20]))
  else (Returned (reply (trace w) swreset), (p, emit w [swreset])).
Proof.
  intros H pin level swreset. subst pin level swreset.
  apply new_panel_handle in H as [_ Hf].
  apply new_panel_fields_spec in Hf as (_ & _ & Hio & Hpin & Hlvl & _).
  rewrite reset_run, Hio, Hpin, Hlvl. reflexivity.
Qed.

(** X16. [esp_lcd_new_panel_st7789] returns [ESP_OK] with a handle exactly
    when the three pointers are there, [calloc] returns a block, the reset
    pin (if any) is configured without error, the colour order is RGB or
    BGR and the bit depth is 16 or 18.  It has then called [calloc] once
    and, with a reset pin, [gpio_config] once, and nothing else. *)
Theorem new_panel_succeeds_iff (io_ : Z)
    (cfg : DevConfig.esp_lcd_panel_dev_config_t) (ret_panel : bool) (w : world) :
  let r := esp_lcd_new_panel_st7789 reply io_ (Some cfg) ret_panel w in
  ((exists p, fst r = Returned (ESP_OK, Some p)) <->
   setup_passes reply io_ cfg ret_panel w /\
   (DevConfig.rgb_endian cfg = LCD_RGB_ENDIAN_RGB \/
    DevConfig.rgb_endian cfg = LCD_RGB_ENDIAN_BGR) /\
   (DevConfig.bits_per_pixel cfg = 16 \/ DevConfig.bits_per_pixel cfg = 18)) /\
  ((exists p, fst r = Returned (ESP_OK, Some p)) ->
   trace (snd r) =
     trace w ++ EvCalloc ::
       (if DevConfig.reset_gpio_num cfg >=? 0 then [rst_config cfg] else [])).
Proof.
  intros r. subst r. split; [split|].
  - intros [p H].
    destruct (esp_lcd_new_panel_st7789 reply io_ (Some cfg) ret_panel w)
      as [o w1] eqn:E. cbn [fst] in H. subst o.
    pose proof (f_equal fst E) as Hfst. cbn [fst] in Hfst.
    apply new_panel_handle in Hfst as [_ Hf].
    apply new_panel_fields_spec in Hf as (He & Hb & _).
    apply new_panel_success_world in E as [Hs _].
    split; [exact Hs|]. split; tauto.
  - intros (Hs & He & Hb).
    rewrite (new_panel_after_setup reply _ _ _ _ Hs).
    destruct (new_panel_fields io_ cfg) as [p|] eqn:Hf; [eauto|].
    apply new_panel_fields_none in Hf. exfalso. tauto.
  - intros [p H].
    destruct (esp_lcd_new_panel_st7789 reply io_ (Some cfg) ret_panel w)
      as [o w1] eqn:E. cbn [fst] in H. subst o.
    apply new_panel_success_world in E as [_ ->]. cbn [snd].
    destruct (DevConfig.reset_gpio_num cfg >=? 0); reflexivity.
Qed.

(** ** Initialisation after creation and orientation calls *)

Lemma init_run (p : st7789_panel_t) (w : world) :
  let slpout := EvTxParam (io p) 0x11 [] in
  let madctl := EvTxParam (io p) 0x36 [madctl_val p] in
  let colmod := EvTxParam (io p) 0x3A [colmod_cal p] in
  let rc1 := reply (trace w) slpout in
  let rc2 := reply (trace w ++ [slpout; EvDelayMs 100]) madctl in
  let rc3 := reply (trace w ++ [slpout; EvDelayMs 100; madctl]) colmod in
  panel_st7789_init reply (p, w) =
  if negb (rc1 =? ESP_OK) then (Returned rc1, (p, emit w [slpout]))
  else if negb (rc2 =? ESP_OK)
  then (Returned rc2, (p, emit w [slpout; EvDelayMs 100; madctl]))
  else if negb (rc3 =? ESP_OK)
  then (Returned rc3, (p, emit w [slpout; EvDelayMs 100; madctl; colmod]))
  else (Returned ESP_OK,
        (p, emit w [slpout; EvDelayMs 100; madctl; colmod;
                    EvTxParam (io p) 0xE0 gamma_positive;
                    EvTxParam (io p) 0xE1 gamma_negative])).
Proof.
  intros slpout madctl colmod rc1 rc2 rc3.
  unfold panel_st7789_init. run_driver.
  fold slpout. fold rc1.
  destruct (rc1 =? ESP_OK); cbn; [|reflexivity].
  rewrite <- !app_assoc; cbn. fold madctl. fold rc2.
  destruct (rc2 =? ESP_OK); cbn.
  2:{ unfold log, emit; simpl. now rewrite <- !app_assoc. }
  rewrite <- !app_assoc; cbn. fold colmod. fold rc3.
  destruct (rc3 =? ESP_OK); cbn.
  2:{ unfold log, emit; simpl. now rewrite <- !app_assoc. }
  unfold log, emit; simpl. now rewrite <- !app_assoc.
Qed.

Lemma run_calls_range (cs : list orient_call) (p : st7789_panel_t) (w : world) :
  cs <> [] \/ 0 <= madctl_val p < 256 ->
  0 <= madctl_val (fst (run_calls reply cs (p, w))) < 256.
Proof.
  revert p w. induction cs as [|c cs IH]; intros p w H.
  - destruct H as [H|H]; [contradiction|exact H].
  - cbn [run_calls]. destruct c as [mx my|b]; cbn [do_call];
      [rewrite mirror_run|rewrite swap_xy_run]; cbn [snd];
      apply IH; right; cbn [madctl_val]; apply set_flag_range.
Qed.

Lemma run_calls_colmod (cs : list orient_call) (p : st7789_panel_t) (w : world) :
  colmod_cal (fst (run_calls reply cs (p, w))) = colmod_cal p.
Proof.
  revert p w. induction cs as [|c cs IH]; intros p w; [reflexivity|].
  cbn [run_calls]. destruct c as [mx my|b]; cbn [do_call];
    [rewrite mirror_run|rewrite swap_xy_run]; cbn [snd]; now rewrite IH.
Qed.

Lemma testbit_byte_high (m i : Z) : 0 <= m < 256 -> 8 <= i -> Z.testbit m i = false.
Proof.
  intros Hm Hi. rewrite <- (Z.mod_small m (2 ^ 8)) by (pow2_consts; lia).
  rewrite Z.testbit_mod_pow2 by lia.
  assert ((i <? 8) = false) as -> by (apply Z.ltb_ge; lia). reflexivity.
Qed.

Lemma testbit_madctl_of (bgr sw mx my : bool) (i : Z) :
  0 <= i ->
  Z.testbit (madctl_of bgr sw mx my) i =
  if i =? 3 then bgr else if i =? 5 then sw else if i =? 6 then mx
  else if i =? 7 then my else false.
Proof.
  intros Hi. unfold madctl_of. rewrite !Z.lor_spec.
  assert (F : forall (b : bool) k, 0 <= k ->
            Z.testbit (if b then 2 ^ k else 0) i = b && (k =? i)).
  { intros b k Hk. destruct b; [now rewrite Z.pow2_bits_eqb|apply Z.bits_0]. }
  change 8 with (2 ^ 3). change 32 with (2 ^ 5).
  change 64 with (2 ^ 6). change 128 with (2 ^ 7).
  rewrite !F by lia.
  rewrite (Z.eqb_sym 3 i), (Z.eqb_sym 5 i), (Z.eqb_sym 6 i), (Z.eqb_sym 7 i).
  destruct (Z.eqb_spec i 3), (Z.eqb_spec i 5), (Z.eqb_spec i 6), (Z.eqb_spec i 7);
    try lia; destruct bgr, sw, mx, my; reflexivity.
Qed.

Lemma last_calls_none (cs : list orient_call) :
  last_mirror cs = None -> last_swap cs = None -> cs = [].
Proof.
  destruct cs as [|c cs]; [reflexivity|]. cbn [last_mirror last_swap].
  destruct (last_mirror cs), (last_swap cs), c; discriminate.
Qed.

(** X7. After any sequence of mirror and swap calls, bit 5 of
    [madctl_val] is the argument of the last swap call, bits 6 and 7 are
    the two arguments of the last mirror call, and a bit whose call never
    occurred, like every other bit of the byte, is what it was before the
    sequence.  Earlier calls of the same kind leave no trace: two
    sequences with the same last mirror call and the same last swap call
    leave the same byte, whatever the transport answered. *)
Theorem orientation_last_call_wins (cs : list orient_call)
    (p : st7789_panel_t) (w : world) :
  (forall i, 0 <= i < 8 ->
     Z.testbit (madctl_val (fst (run_calls reply cs (p, w)))) i =
     if i =? 5 then match last_swap cs with
                    | Some b => b
                    | None => Z.testbit (madctl_val p) 5
                    end
     else if i =? 6 then match last_mirror cs with
                         | Some (mx, _) => mx
                         | None => Z.testbit (madctl_val p) 6
                         end
     else if i =? 7 then match last_mirror cs with
                         | Some (_, my) => my
                         | None => Z.testbit (madctl_val p) 7
                         end
     else Z.testbit (madctl_val p) i) /\
  (forall cs' w',
     last_mirror cs' = last_mirror cs -> last_swap cs' = last_swap cs ->
     madctl_val (fst (run_calls reply cs' (p, w'))) =
     madctl_val (fst (run_calls reply cs (p, w)))).
Proof.
  split; [intros i Hi; apply run_calls_last_bits, Hi|].
  intros cs' w' Hm Hs.
  destruct cs as [|c cs].
  - cbn [last_mirror last_swap] in Hm, Hs.
    now rewrite (last_calls_none cs' Hm Hs).
  - assert (Hne' : cs' <> []).
    { intros ->. symmetry in Hm, Hs. change (@None (bool * bool)) with (last_mirror []) in Hm.
      change (@None bool) with (last_swap []) in Hs.
      cbn [last_mirror last_swap] in Hm, Hs.
      pose proof (last_calls_none (c :: cs) Hm Hs). discriminate. }
    apply Z.bits_inj'. intros i Hi.
    destruct (Z.lt_ge_cases i 8) as [Hlt|Hge].
    + rewrite !run_calls_last_bits by lia. now rewrite Hm, Hs.
    + rewrite !testbit_byte_high; try exact Hge; try reflexivity;
        apply run_calls_range; left; [discriminate|exact Hne'].
Qed.

(** X18. What [panel_st7789_init] puts on the wire is fixed by the
    creation request and by the last orientation calls.  On a panel
    created from [cfg] and then subjected to any mirror and swap calls, it
    sends 0x11, waits 100 ms, sends 0x36 with the byte made of bit 3 (set
    for BGR), bit 5 (last swap), bits 6 and 7 (last mirror) and nothing
    else, then 0x3A with 0x55 for 16 bits per pixel or 0x66 for 18, then
    the two gamma tables, all on the [io] given at creation; it stops at
    the first of the three commands that fails. *)
Theorem init_sends_configuration (io_ : Z)
    (cfg : DevConfig.esp_lcd_panel_dev_config_t) (ret_panel : bool)
    (w0 w1 w : world) (rc : esp_err_t) (p : st7789_panel_t)
    (cs : list orient_call) :
  fst (esp_lcd_new_panel_st7789 reply io_ (Some cfg) ret_panel w0) =
    Returned (rc, Some p) ->
  let p' := fst (run_calls reply cs (p, w1)) in
  let byte :=
    madctl_of (DevConfig.rgb_endian cfg =? LCD_RGB_ENDIAN_BGR)
              (match last_swap cs with Some b => b | None => false end)
              (match last_mirror cs with Some (mx, _) => mx | None => false end)
              (match last_mirror cs with Some (_, my) => my | None => false end) in
  let slpout := EvTxParam io_ 0x11 [] in
  let madctl := EvTxParam io_ 0x36 [byte] in
  let colmod := EvTxParam io_ 0x3A
                  [if DevConfig.bits_per_pixel cfg =? 16 then 0x55 else 0x66] in
  let rc1 := reply (trace w) slpout in
  let rc2 := reply (trace w ++ [slpout; EvDelayMs 100]) madctl in
  let rc3 := reply (trace w ++ [slpout; EvDelayMs 100; madctl]) colmod in
  madctl_val p' = byte /\
  panel_st7789_init reply (p', w) =
  if negb (rc1 =? ESP_OK) then (Returned rc1, (p', emit w [slpout]))
  else if negb (rc2 =? ESP_OK)
  then (Returned rc2, (p', emit w [slpout; EvDelayMs 100; madctl]))
  else if negb (rc3 =? ESP_OK)
  then (Returned rc3, (p', emit w [slpout; EvDelayMs 100; madctl; colmod]))
  else (Returned ESP_OK,
        (p', emit w [slpout; EvDelayMs 100; madctl; colmod;
                     EvTxParam io_ 0xE0 gamma_positive;
                     EvTxParam io_ 0xE1 gamma_negative])).
Proof.
  intros H p' byte.
  apply new_panel_handle in H as [_ Hf].
  apply new_panel_fields_spec in Hf as (He & Hb & Hio & _).
  assert (Hrange : 0 <= madctl_val p < 256).
  { unfold LCD_CMD_BGR_BIT in He. change (Z.shiftl 1 3) with 8 in He.
    destruct He as [[_ ->]|[_ ->]]; lia. }
  assert (Hbyte : madctl_val p' = byte).
  { apply Z.bits_inj'. intros i Hi. subst byte.
    rewrite testbit_madctl_of by exact Hi.
    destruct (Z.lt_ge_cases i 8) as [Hlt|Hge].
    - subst p'. rewrite run_calls_last_bits by lia.
      assert (Hbase : forall j, 0 <= j ->
                Z.testbit (madctl_val p) j =
                (DevConfig.rgb_endian cfg =? LCD_RGB_ENDIAN_BGR) && (j =? 3)).
      { intros j Hj. unfold LCD_CMD_BGR_BIT, LCD_RGB_ENDIAN_RGB, LCD_RGB_ENDIAN_BGR in *.
        rewrite Z.shiftl_1_l in He.
        destruct He as [[-> ->]|[-> ->]].
        - rewrite Z.bits_0. reflexivity.
        - rewrite Z.pow2_bits_eqb by lia. now rewrite (Z.eqb_sym 3 j). }
      rewrite !Hbase by lia.
      destruct (Z.eqb_spec i 3), (Z.eqb_spec i 5), (Z.eqb_spec i 6),
               (Z.eqb_spec i 7); try lia; subst; cbn [andb];
        rewrite ?andb_true_r, ?andb_false_r;
        try reflexivity;
        try (destruct (last_swap cs); reflexivity);
        try (destruct (last_mirror cs) as [[? ?]|]; reflexivity).
    - rewrite testbit_byte_high; [|apply run_calls_range; right; exact Hrange|exact Hge].
      destruct (Z.eqb_spec i 3), (Z.eqb_spec i 5), (Z.eqb_spec i 6),
               (Z.eqb_spec i 7); try lia; try reflexivity. }
  split; [exact Hbyte|].
  cbv zeta. rewrite init_run. cbv zeta.
  destruct (run_calls_geometry cs p w1) as (Gio & _).
  fold p' in Gio. rewrite Hbyte, Gio, Hio.
  assert (Hcm : colmod_cal p' =
                if DevConfig.bits_per_pixel cfg =? 16 then 0x55 else 0x66).
  { subst p'. rewrite run_calls_colmod.
    destruct Hb as [(-> & -> & _)|(-> & -> & _)]; reflexivity. }
  rewrite Hcm. reflexivity.
Qed.

(** ** The calls the operations make *)

Lemma emit_emit (w : world) (a b : list event) : emit (emit w a) b = emit w (a ++ b).
Proof. unfold emit. cbn. now rewrite app_assoc. Qed.

Lemma emit_none (w : world) : w = emit w [].
Proof. destruct w. unfold emit. cbn. now rewrite app_nil_r. Qed.

Lemma do_op_events (o : panel_op) (p : st7789_panel_t) (w : world) :
  exists evs,
    world_after (do_op reply o (p, w)) = emit w evs /\
    forallb (event_of_panel p) evs = true.
Proof.
  assert (Hio : (io p =? io p) = true) by apply Z.eqb_refl.
  assert (Hpin : (reset_gpio_num p =? reset_gpio_num p) = true) by apply Z.eqb_refl.
  destruct o as [| |xs ys xe ye d|b|mx my|b|xg yg|b]; cbn [do_op].
  - rewrite reset_run. unfold world_after.
    destruct (reset_gpio_num p >=? 0);
      [|destruct (_ =? ESP_OK)];
      eexists; (split; [reflexivity|]); cbn; rewrite ?Hio, ?Hpin; reflexivity.
  - rewrite init_run. cbv zeta. unfold world_after.
    repeat match goal with
           | |- context [negb ?c] => destruct c; cbn [negb]
           end;
      eexists; (split; [reflexivity|]); cbn; rewrite ?Hio; reflexivity.
  - destruct ((xs <? xe) && (ys <? ye)) eqn:H.
    + apply andb_true_iff in H as [Hx Hy]. apply Z.ltb_lt in Hx, Hy.
      rewrite (draw_bitmap_run reply p w xs ys xe ye d Hx Hy). cbv zeta.
      unfold world_after.
      repeat match goal with
             | |- context [negb ?c] => destruct c; cbn [negb]
             end;
        eexists; (split; [reflexivity|]); cbn; rewrite ?Hio; reflexivity.
    + rewrite draw_bitmap_rejected by exact H. exists [].
      split; [apply emit_none|reflexivity].
  - rewrite invert_color_run. eexists. split; [reflexivity|].
    cbn. now rewrite Hio.
  - rewrite mirror_run. eexists. split; [reflexivity|].
    cbn. now rewrite Hio.
  - rewrite swap_xy_run. eexists. split; [reflexivity|].
    cbn. now rewrite Hio.
  - exists []. split; [apply emit_none|reflexivity].
  - rewrite disp_on_off_run. eexists. split; [reflexivity|].
    cbn. now rewrite Hio.
Qed.

Lemma event_of_panel_ext (p q : st7789_panel_t) (evs : list event) :
  io q = io p -> reset_gpio_num q = reset_gpio_num p ->
  forallb (event_of_panel q) evs = forallb (event_of_panel p) evs.
Proof.
  intros H1 H2. induction evs as [|e evs IH]; [reflexivity|].
  cbn [forallb]. rewrite IH. f_equal.
  destruct e; cbn [event_of_panel]; rewrite ?H1, ?H2; reflexivity.
Qed.

Lemma run_ops_events (ops : list panel_op)
    (p : st7789_panel_t) (w : world) :
  exists evs,
    world_after (run_ops reply ops (p, w)) = emit w evs /\
    forallb (event_of_panel p) evs = true.
Proof.
  revert p w. induction ops as [|o ops IH]; intros p w.
  - exists []. split; [apply emit_none|reflexivity].
  - rewrite run_ops_cons.
    destruct (do_op_events o p w) as (e1 & Hw1 & Hf1).
    destruct (do_op_step o p w) as ((Hio & Hpin & _) & _).
    destruct (do_op reply o (p, w)) as [[a|] [p1 w1]];
      unfold world_after, panel_after in Hw1, Hio, Hpin; cbn [fst snd] in *.
    + destruct (IH p1 w1) as (e2 & Hw2 & Hf2).
      exists (e1 ++ e2). rewrite Hw2, Hw1, emit_emit. split; [reflexivity|].
      rewrite forallb_app, Hf1.
      now rewrite <- (event_of_panel_ext p p1 e2 Hio Hpin), Hf2.
    + exists e1. unfold world_after. cbn [snd]. auto.
Qed.

(** X19. Operations on a panel object only ever talk to the panel's own
    collaborators.  Over any sequence of operations, every transport call
    is made on the [io] stored in the object, every GPIO call is a level
    change of its own reset pin, and nothing is allocated, freed,
    configured or released: the live blocks and the held pins are what
    they were, and the earlier calls are still the beginning of the
    trace. *)
Theorem operations_use_own_collaborators (ops : list panel_op)
    (p : st7789_panel_t) (w : world) :
  let w' := world_after (run_ops reply ops (p, w)) in
  live_blocks w' = live_blocks w /\ held_pins w' = held_pins w /\
  exists evs,
    trace w' = trace w ++ evs /\ forallb (event_of_panel p) evs = true.
Proof.
  intros w'. subst w'.
  destruct (run_ops_events ops p w) as (evs & -> & Hf).
  cbn [emit live_blocks held_pins trace]. eauto.
Qed.

End Coverage.

(** * The further properties at concrete requests *)

(** X1: deleting the 18-bit panel releases GPIO 4 and keeps GPIO 5. *)
Lemma del_releases_witness :
  reset_gpio_num panel18 >= 0 /\
  ~ In 4 (held_pins (world_after (panel_st7789_del ok_reply (panel18, w_held)))) /\
  In 5 (held_pins (world_after (panel_st7789_del ok_reply (panel18, w_held)))).
Proof.
  assert (H : reset_gpio_num panel18 >= 0) by (cbn; lia).
  destruct (del_releases ok_reply panel18 w_held) as (_ & _ & _ & Hrel & Hkeep).
  split; [exact H|]. split.
  - exact (Hrel H).
  - apply Hkeep.
    + intros _. discriminate.
    + cbn. auto.
Defined.

(** X2: the 18-bit BGR panel, created and deleted. *)
Lemma new_then_del_restores_witness :
  exists w1,
    esp_lcd_new_panel_st7789 ok_reply 1 (Some cfg_bgr18) true w0 =
      (Returned (ESP_OK, Some panel18), w1) /\
    live_blocks w1 = 1%nat /\
    live_blocks (world_after (panel_st7789_del ok_reply (panel18, w1))) = 0%nat /\
    forall x, ~ In x (held_pins (world_after (panel_st7789_del ok_reply (panel18, w1)))).
Proof.
  exists (snd (esp_lcd_new_panel_st7789 ok_reply 1 (Some cfg_bgr18) true w0)).
  assert (E : esp_lcd_new_panel_st7789 ok_reply 1 (Some cfg_bgr18) true w0 =
              (Returned (ESP_OK, Some panel18),
               snd (esp_lcd_new_panel_st7789 ok_reply 1 (Some cfg_bgr18) true w0)))
    by (vm_compute; reflexivity).
  destruct (new_then_del_restores ok_reply _ _ _ _ _ _ _ E) as (H1 & _ & H2 & H3 & _).
  split; [exact E|]. split; [exact H1|]. split; [exact H2|].
  intros x Hx. exact (H3 x Hx).
Defined.

(** X3: the 18-bit BGR panel is reset through GPIO 4, active high. *)
Lemma new_panel_reset_path_witness :
  fst (esp_lcd_new_panel_st7789 ok_reply 1 (Some cfg_bgr18) true w0) =
    Returned (ESP_OK, Some panel18) /\
  panel_st7789_reset ok_reply (panel18, w0) =
  (Returned ESP_OK,
   (panel18, emit w0 [EvGpioSetLevel 4 true; EvDelayMs 10;
                      EvGpioSetLevel 4 false; EvDelayMs 10])).
Proof.
  split; [reflexivity|].
  exact (new_panel_reset_path ok_reply 1 cfg_bgr18 true w0 w0 ESP_OK panel18 eq_refl).
Defined.

(** X7: a swap switched on and off again, and two sequences ending alike. *)
Lemma orientation_last_call_wins_witness :
  0 <= 5 < 8 /\
  Z.testbit (madctl_val (fst (run_calls ok_reply calls_long (panel18, w0)))) 5 =
    false /\
  last_mirror calls_short = last_mirror calls_long /\
  last_swap calls_short = last_swap calls_long /\
  madctl_val (fst (run_calls ok_reply calls_short (panel18, w_held))) =
  madctl_val (fst (run_calls ok_reply calls_long (panel18, w0))).
Proof.
  assert (H : 0 <= 5 < 8) by lia.
  destruct (orientation_last_call_wins ok_reply calls_long panel18 w0) as [Hb He].
  split; [exact H|]. split; [exact (Hb 5 H)|].
  split; [reflexivity|]. split; [reflexivity|].
  exact (He calls_short w_held eq_refl eq_refl).
Defined.

(** X9: a mirror call, a draw and an initialisation leave the gaps and the
    transport handle alone. *)
Lemma operations_keep_configuration_witness :
  forallb (fun o => negb (is_set_gap o))
          [OpMirror true false; OpDrawBitmap 0 0 10 10 77; OpInit] = true /\
  x_gap (panel_after (run_ops ok_reply
           [OpMirror true false; OpDrawBitmap 0 0 10 10 77; OpInit]
           (panel18, w0))) = 0 /\
  io (panel_after (run_ops ok_reply
        [OpMirror true false; OpDrawBitmap 0 0 10 10 77; OpInit]
        (panel18, w0))) = 1.
Proof.
  destruct (operations_keep_configuration ok_reply
              [OpMirror true false; OpDrawBitmap 0 0 10 10 77; OpInit]
              panel18 w0) as [Hc Hg].
  split; [reflexivity|]. split.
  - exact (proj1 (Hg eq_refl)).
  - exact (proj1 Hc).
Defined.

(** X10: the bytes of the created 18-bit panel, before and after two
    orientation calls. *)
Lemma bytes_stay_in_range_witness :
  panel_bytes_ok panel18 /\
  panel_bytes_ok (panel_after (run_ops ok_reply [OpMirror true true; OpSwapXY true]
                                 (panel18, w0))).
Proof.
  destruct (bytes_stay_in_range ok_reply) as [Hnew Hops].
  assert (H : panel_bytes_ok panel18).
  { apply (Hnew 1 cfg_bgr18 true w0 ESP_OK panel18). reflexivity. }
  split; [exact H|]. apply Hops, H.
Defined.

(** X11: a draw on the turned panel is the draw on the plain one. *)
Lemma draw_ignores_orientation_witness :
  io panel16_turned = io panel16 /\ x_gap panel16_turned = x_gap panel16 /\
  y_gap panel16_turned = y_gap panel16 /\
  fb_bits_per_pixel panel16_turned = fb_bits_per_pixel panel16 /\
  world_after (panel_st7789_draw_bitmap ok_reply 0 0 10 20 77 (panel16_turned, w0)) =
  world_after (panel_st7789_draw_bitmap ok_reply 0 0 10 20 77 (panel16, w0)).
Proof.
  repeat (split; [reflexivity|]).
  apply (proj1 (draw_ignores_orientation ok_reply panel16 panel16_turned w0
                  0 0 10 20 77)); reflexivity.
Defined.

(** X12: with gaps 3 and 5, columns 0..10 are addressed as 3 and 12. *)
Lemma draw_bitmap_address_bytes_witness :
  0 < 10 /\ 0 < 10 /\
  exists c0 c1 c2 c3 rest,
    trace (world_after (panel_st7789_draw_bitmap ok_reply 0 0 10 10 77
                          (snd (panel_st7789_set_gap 3 5 (panel16, w0))))) =
      EvTxParam 1 0x2A [c0; c1; c2; c3] :: rest /\
    c0 * 256 + c1 = 3 /\ c2 * 256 + c3 = 12.
Proof.
  split; [lia|]. split; [lia|].
  destruct (draw_bitmap_address_bytes ok_reply
              (fst (snd (panel_st7789_set_gap 3 5 (panel16, w0)))) w0
              0 0 10 10 77 eq_refl eq_refl)
    as (c0 & c1 & c2 & c3 & rest & Ht & _ & E01 & E23 & _).
  exists c0, c1, c2, c3, rest. split; [exact Ht|]. split; [exact E01|exact E23].
Defined.

(** X14: 100 pixels on the 18-bit panel are 300 bytes. *)
Lemma bytes_per_pixel_witness :
  fst (esp_lcd_new_panel_st7789 ok_reply 1 (Some cfg_bgr18) true w0) =
    Returned (ESP_OK, Some panel18) /\
  0 < 10 /\ 0 < 10 /\ (10 - 0) * (10 - 0) * 24 <= INT_MAX /\
  pixel_write_lengths
    (trace (world_after (panel_st7789_draw_bitmap ok_reply 0 0 10 10 77
                           (panel18, w0)))) = [300].
Proof.
  assert (H : (10 - 0) * (10 - 0) * 24 <= INT_MAX) by discriminate.
  split; [reflexivity|]. split; [lia|]. split; [lia|]. split; [exact H|].
  destruct (bytes_per_pixel ok_reply 1 cfg_bgr18 true w0 w0 ESP_OK panel18
              0 0 10 10 77 eq_refl eq_refl eq_refl H) as (evs & Hw & _ & Hone).
  rewrite Hw. exact (Hone eq_refl).
Defined.

(** X15: the software reset of the panel without reset line. *)
Lemma reset_timing_witness :
  reset_gpio_num panel16 < 0 /\
  exists evs,
    world_after (panel_st7789_reset ok_reply (panel16, w0)) = emit w0 evs /\
    total_delay evs = 20 /\ filter is_gpio evs = [].
Proof.
  assert (H : reset_gpio_num panel16 < 0) by reflexivity.
  split; [exact H|].
  destruct (reset_timing ok_reply panel16 w0) as (evs & Hw & Hok & _ & _ & Hsw).
  exists evs. split; [exact Hw|]. split; [exact (Hok eq_refl)|exact (Hsw H)].
Defined.

(** X16: the 18-bit BGR request succeeds after [calloc] and one
    [gpio_config]. *)
Lemma new_panel_succeeds_iff_witness :
  setup_passes ok_reply 1 cfg_bgr18 true w0 /\
  (exists p, fst (esp_lcd_new_panel_st7789 ok_reply 1 (Some cfg_bgr18) true w0) =
             Returned (ESP_OK, Some p)) /\
  trace (snd (esp_lcd_new_panel_st7789 ok_reply 1 (Some cfg_bgr18) true w0)) =
    [EvCalloc; rst_config cfg_bgr18].
Proof.
  assert (H : setup_passes ok_reply 1 cfg_bgr18 true w0).
  { repeat split; try discriminate. }
  destruct (new_panel_succeeds_iff ok_reply 1 cfg_bgr18 true w0) as [Hiff Htr].
  assert (Hex : exists p,
            fst (esp_lcd_new_panel_st7789 ok_reply 1 (Some cfg_bgr18) true w0) =
            Returned (ESP_OK, Some p)).
  { apply Hiff. split; [exact H|]. split; right; reflexivity. }
  split; [exact H|]. split; [exact Hex|exact (Htr Hex)].
Defined.

(** X17: the first draw on the created 18-bit panel. *)
Lemma new_panel_draws_unshifted_witness :
  fst (esp_lcd_new_panel_st7789 ok_reply 1 (Some cfg_bgr18) true w0) =
    Returned (ESP_OK, Some panel18) /\
  0 < 10 /\ 0 < 20 /\
  exists rest,
    trace (world_after (panel_st7789_draw_bitmap ok_reply 0 0 10 20 77
                          (panel18, w0))) =
    EvTxParam 1 0x2A [0x00; 0x00; 0x00; 0x09] :: rest.
Proof.
  split; [reflexivity|]. split; [lia|]. split; [lia|].
  destruct (new_panel_draws_unshifted ok_reply 1 cfg_bgr18 true w0 w0 ESP_OK
              panel18 0 0 10 20 77 eq_refl eq_refl eq_refl)
    as (_ & _ & rest & Ht & _).
  exists rest. exact Ht.
Defined.

(** X18: BGR, mirrored in x and swapped: the byte 0x68. *)
Lemma init_sends_configuration_witness :
  fst (esp_lcd_new_panel_st7789 ok_reply 1 (Some cfg_bgr18) true w0) =
    Returned (ESP_OK, Some panel18) /\
  madctl_val (fst (run_calls ok_reply [CallMirror true false; CallSwapXY true]
                     (panel18, w0))) = 0x68.
Proof.
  split; [reflexivity|].
  exact (proj1 (init_sends_configuration ok_reply 1 cfg_bgr18 true w0 w0 w0 ESP_OK
                  panel18 [CallMirror true false; CallSwapXY true] eq_refl)).
Defined.
